(** * Content-analysis MCP server: tool handlers and scoring engine

    The first half embeds [src/index.js] (class [ContentQualityMCP]): the
    tool schemas, the three argument-building handlers, the help handler
    and the promise returned by [runPythonScript].  The second half models
    the scoring and aggregation engine (the Python analyzer the server
    spawns), whose code is not part of the sources; its definitions follow
    the specification and say so. *)

From Stdlib Require Import ZArith QArith Qminmax Lqa String Ascii List Bool Lia.
From Stdlib Require Import Permutation DecimalString DecimalZ.
From stdpp Require Import gmap strings.
Import ListNotations.

Set Warnings "-register-all".

Local Open Scope string_scope.

(** ** Strings *)

(** The double-quote and line-feed characters, written by code. *)
Definition dq : string := String (ascii_of_nat 34) EmptyString.
Definition nl : string := String (ascii_of_nat 10) EmptyString.

(** Number-to-string conversion of an integer, as a template literal or a
    property key sees it. *)
Definition decimal (z : Z) : string := NilZero.string_of_int (Z.to_int z).

(** * JavaScript values *)

Module JS.

(** Values that reach a handler through a JSON-RPC request.  Numbers are
    integers; an object is the list of its own properties in insertion
    order, each key once.  Strings are byte strings.  [undefined] is the
    absence of a value, [None] in an [option json]. *)
Inductive json : Type :=
| JNull
| JBool (b : bool)
| JNum (n : Z)
| JStr (s : string)
| JArr (xs : list json)
| JObj (props : list (string * json)).

Fixpoint assoc {A : Type} (k : string) (l : list (string * A)) : option A :=
  match l with
  | [] => None
  | (k', v) :: r => if String.eqb k' k then Some v else assoc k r
  end.

(** [o.k] for the names the handlers destructure: none of them is defined
    on a prototype, so only own properties of an object answer. *)
Definition field (o : json) (k : string) : option json :=
  match o with
  | JObj props => assoc k props
  | _ => None
  end.

(** [const { k = d } = o]: the default replaces [undefined] only. *)
Definition with_default (d : json) (v : option json) : json :=
  match v with
  | Some x => x
  | None => d
  end.

(** Truthiness, as [!v], [v && ...] and [v || ...] test it. *)
Definition truthy (v : option json) : bool :=
  match v with
  | None => false
  | Some JNull => false
  | Some (JBool b) => b
  | Some (JNum n) => negb (n =? 0)%Z
  | Some (JStr s) => negb (String.eqb s EmptyString)
  | Some (JArr _) => true
  | Some (JObj _) => true
  end.

(** [Object.keys(v).length]. *)
Definition object_keys_length (v : json) : nat :=
  match v with
  | JStr s => String.length s
  | JArr xs => List.length xs
  | JObj props => List.length props
  | _ => 0
  end.

(** [String(v)], which a template literal and a computed property key
    apply.  An object with an own [toString] property (never callable in a
    JSON value) has no primitive value: the conversion throws a
    [TypeError], here [None]. *)
Fixpoint to_string (v : json) : option string :=
  match v with
  | JNull => Some "null"
  | JBool true => Some "true"
  | JBool false => Some "false"
  | JNum n => Some (decimal n)
  | JStr s => Some s
  | JArr xs =>
      let fix join (l : list json) : option (list string) :=
        match l with
        | [] => Some []
        | x :: r =>
            match (match x with JNull => Some EmptyString | _ => to_string x end),
                  join r with
            | Some s, Some ss => Some (s :: ss)
            | _, _ => None
            end
        end in
      match join xs with
      | Some ss => Some (String.concat "," ss)
      | None => None
      end
  | JObj props =>
      match assoc "toString" props with
      | Some _ => None
      | None => Some "[object Object]"
      end
  end.

(** What a property read on an object literal can yield: one of its own
    string values, or a member inherited from [Object.prototype]. *)
Inductive value : Type :=
| VStr (s : string)
| VInherited (name : string).

Definition object_prototype_keys : list string :=
  [ "constructor"; "__defineGetter__"; "__defineSetter__"; "hasOwnProperty";
    "__lookupGetter__"; "__lookupSetter__"; "isPrototypeOf";
    "propertyIsEnumerable"; "toString"; "valueOf"; "__proto__";
    "toLocaleString" ].

(** [obj[key]] on an object literal with string-valued own properties:
    own properties first, then the prototype chain. *)
Definition get_property (own : list (string * string)) (key : string)
  : option value :=
  match assoc key own with
  | Some s => Some (VStr s)
  | None =>
      if existsb (String.eqb key) object_prototype_keys
      then Some (VInherited key)
      else None
  end.

(** [v || d] on such a read: functions and objects are truthy, the empty
    string and [undefined] are not. *)
Definition or_else (v : option value) (d : value) : value :=
  match v with
  | Some (VStr s) => if String.eqb s EmptyString then d else VStr s
  | Some (VInherited n) => VInherited n
  | None => d
  end.

End JS.

(** * The server of [src/index.js] *)

Module Server.
Import JS.

(** ** Tool schemas ([ListToolsRequestSchema] handler) *)

(** A property of an input schema: its name, [type], [enum], [default]
    and, for an object, the types of its own [properties].  Descriptions
    are left out. *)
Record property_schema := {
  p_name : string;
  p_type : string;
  p_enum : option (list string);
  p_default : option json;
  p_properties : list (string * string)
}.

Record tool_schema := {
  t_name : string;
  t_properties : list property_schema;
  t_required : list string
}.

Definition default_chroma_directory : string :=
  "/Users/andrewansley/Desktop/chroma-test".

Definition chroma_directory_schema : property_schema :=
  {| p_name := "chroma_directory"; p_type := "string"; p_enum := None;
     p_default := Some (JStr default_chroma_directory); p_properties := [] |}.

Definition tools : list tool_schema :=
  [ {| t_name := "analyze_content_quality";
       t_properties :=
         [ chroma_directory_schema;
           {| p_name := "collection_name"; p_type := "string";
              p_enum := None; p_default := None; p_properties := [] |};
           {| p_name := "analysis_mode"; p_type := "string";
              p_enum := Some ["auto"; "individual"; "website"; "competitive"];
              p_default := Some (JStr "auto"); p_properties := [] |};
           {| p_name := "verbose"; p_type := "boolean"; p_enum := None;
              p_default := Some (JBool false); p_properties := [] |} ];
       t_required := ["collection_name"] |};
    {| t_name := "analyze_text_direct";
       t_properties :=
         [ {| p_name := "text"; p_type := "string"; p_enum := None;
              p_default := None; p_properties := [] |};
           {| p_name := "metadata"; p_type := "object"; p_enum := None;
              p_default := None;
              p_properties :=
                [ ("source", "string"); ("url", "string");
                  ("content_type", "string"); ("site_domain", "string") ] |};
           {| p_name := "analysis_mode"; p_type := "string";
              p_enum := Some ["individual"];
              p_default := Some (JStr "individual"); p_properties := [] |} ];
       t_required := ["text"] |};
    {| t_name := "list_chroma_collections";
       t_properties := [ chroma_directory_schema ];
       t_required := [] |};
    {| t_name := "get_analysis_help";
       t_properties :=
         [ {| p_name := "topic"; p_type := "string";
              p_enum := Some ["modes"; "setup"; "metadata"; "examples"];
              p_default := Some (JStr "modes"); p_properties := [] |} ];
       t_required := [] |} ].

Definition find_tool (name : string) : option tool_schema :=
  List.find (fun t => String.eqb (t_name t) name) tools.

Definition find_property (t : tool_schema) (name : string)
  : option property_schema :=
  List.find (fun p => String.eqb (p_name p) name) (t_properties t).

(** The [enum] and the [default] a tool's schema declares for a property. *)
Definition schema_enum (tool prop : string) : option (list string) :=
  match find_tool tool with
  | Some t =>
      match find_property t prop with
      | Some p => p_enum p
      | None => None
      end
  | None => None
  end.

Definition schema_default (tool prop : string) : option json :=
  match find_tool tool with
  | Some t =>
      match find_property t prop with
      | Some p => p_default p
      | None => None
      end
  | None => None
  end.

(** JSON Schema validation of an arguments object, for the keywords the
    schemas use: [type], [enum] (equality with one of the listed values),
    [properties] and [required].  The server never runs it: a client
    does, or nobody. *)
Definition type_ok (ty : string) (v : json) : bool :=
  match v with
  | JStr _ => String.eqb ty "string"
  | JBool _ => String.eqb ty "boolean"
  | JObj _ => String.eqb ty "object"
  | _ => false
  end.

Definition enum_ok (e : option (list string)) (v : json) : bool :=
  match e with
  | None => true
  | Some allowed =>
      match v with
      | JStr s => existsb (String.eqb s) allowed
      | _ => false
      end
  end.

Definition nested_ok (v : json) (nested : string * string) : bool :=
  match field v (fst nested) with
  | None => true
  | Some x => type_ok (snd nested) x
  end.

Definition property_ok (args : json) (p : property_schema) : bool :=
  match field args (p_name p) with
  | None => true
  | Some v =>
      type_ok (p_type p) v && enum_ok (p_enum p) v
      && forallb (nested_ok v) (p_properties p)
  end.

Definition conforms (t : tool_schema) (args : json) : bool :=
  match args with
  | JObj _ =>
      forallb (property_ok args) (t_properties t)
      && forallb (fun k => match field args k with Some _ => true | None => false end)
           (t_required t)
  | _ => false
  end.

Definition conforms_to (tool : string) (args : json) : bool :=
  match find_tool tool with
  | Some t => conforms t args
  | None => false
  end.

(** ** The child process and [runPythonScript] *)

(** What the spawned process emits: data on its two pipes, [close] with
    the exit code ([null] when a signal ended it), [error]. *)
Inductive proc_event : Type :=
| StdoutData (chunk : string)
| StderrData (chunk : string)
| Close (code : option Z)
| ProcError (message : string).

Inductive promise : Type :=
| Pending
| Resolved (stdout stderr : string)
| Rejected (message stdout stderr : string).

Record run_state := {
  acc_stdout : string;
  acc_stderr : string;
  settled : promise
}.

Definition run_init : run_state :=
  {| acc_stdout := EmptyString; acc_stderr := EmptyString; settled := Pending |}.

(** A promise settles once: later [resolve] and [reject] calls are lost. *)
Definition settle (st : run_state) (p : promise) : run_state :=
  match settled st with
  | Pending =>
      {| acc_stdout := acc_stdout st; acc_stderr := acc_stderr st; settled := p |}
  | _ => st
  end.

(** The exit code as a template literal prints it. *)
Definition code_text (code : option Z) : string :=
  match code with
  | Some c => decimal c
  | None => "null"
  end.

(** One listener call. *)
Definition on_event (st : run_state) (ev : proc_event) : run_state :=
  match ev with
  | StdoutData d =>
      {| acc_stdout := acc_stdout st ++ d; acc_stderr := acc_stderr st;
         settled := settled st |}
  | StderrData d =>
      {| acc_stdout := acc_stdout st; acc_stderr := acc_stderr st ++ d;
         settled := settled st |}
  | Close code =>
      match code with
      | Some 0%Z => settle st (Resolved (acc_stdout st) (acc_stderr st))
      | _ =>
          settle st
            (Rejected ("Python script exited with code " ++ code_text code)
               (acc_stdout st) (acc_stderr st))
      end
  | ProcError m =>
      settle st
        (Rejected ("Failed to start Python script: " ++ m)
           (acc_stdout st) (acc_stderr st))
  end.

Definition run_events (evs : list proc_event) : run_state :=
  fold_left on_event evs run_init.

(** The platform a handler call runs on: module directory, [path.join],
    [os.tmpdir()], [Date.now()], [process.env.PYTHON_PATH],
    [JSON.stringify], the outcome of [fs.writeFile] ([Some] message when
    it throws) and the events of the process [spawn] starts. *)
Record Host := {
  dirname : string;
  path_join : list string -> string;
  tmpdir : string;
  now : Z;
  env_python_path : option string;
  json_stringify : json -> string;
  write_file : string -> json -> option string;
  child : string -> list json -> list proc_event
}.

(** [process.env.PYTHON_PATH || 'python3'] *)
Definition pythonPath (h : Host) : string :=
  match env_python_path h with
  | Some p => if String.eqb p EmptyString then "python3" else p
  | None => "python3"
  end.

Definition runPythonScript (h : Host) (args : list json) : promise :=
  settled (run_events (child h (pythonPath h) args)).

(** ** Handler results *)

Inductive type_error : Type :=
| Destructure      (* destructuring [undefined] or [null] *)
| ToPrimitive.     (* an object without a primitive value *)

Inductive thrown : Type :=
| Err (message : string)
| TypeErr (why : type_error).

Definition to_primitive_message : string :=
  "Cannot convert object to primitive value".

Inductive outcome (A : Type) : Type :=
| Returns (a : A)
| Throws (e : thrown)
| Hangs.
Arguments Returns {A} a.
Arguments Throws {A} e.
Arguments Hangs {A}.

Record content_item := { c_type : string; c_text : value }.
Record tool_response := { content : list content_item }.

Definition text_response (text : value) : tool_response :=
  {| content := [ {| c_type := "text"; c_text := text |} ] |}.

Inductive effect : Type :=
| WriteFile (path : string) (data : json)
| Spawn (command : string) (args : list json)
| Unlink (path : string).

Record call := {
  effects : list effect;
  result : outcome tool_response
}.

(** [error.stderr || 'None'] *)
Definition stderr_or_none (stderr : string) : string :=
  if String.eqb stderr EmptyString then "None" else stderr.

(** ** [analyzeTextDirect] *)

Definition direct_script (h : Host) : string :=
  path_join h [dirname h; ".."; "tools"; "content-quality-analyzer-direct.py"].

Definition tempFile (h : Host) : string :=
  path_join h [tmpdir h; "ta_analysis_" ++ decimal (now h) ++ ".txt"].

(** The argument vector built for the direct analyzer. *)
Definition direct_pythonArgs (h : Host) (metadata analysis_mode : json)
  : list json :=
  [ JStr (direct_script h); JStr (tempFile h); JStr "--mode"; analysis_mode ]
  ++ (if truthy (Some metadata) && (0 <? object_keys_length metadata)%nat
      then [ JStr "--metadata"; JStr (json_stringify h metadata) ]
      else []).

Definition analyzeTextDirect (h : Host) (args : option json) : call :=
  match args with
  | None | Some JNull =>
      {| effects := []; result := Throws (TypeErr Destructure) |}
  | Some a =>
      let text := field a "text" in
      let metadata := with_default (JObj []) (field a "metadata") in
      let analysis_mode :=
        with_default (JStr "individual") (field a "analysis_mode") in
      match text with
      | Some t =>
          if truthy text then
            match write_file h (tempFile h) t with
            | Some msg =>
                {| effects := [ WriteFile (tempFile h) t; Unlink (tempFile h) ];
                   result :=
                     Throws (Err ("Direct analysis failed: " ++ msg ++ nl ++ nl
                                  ++ "Stderr: None")) |}
            | None =>
                let pythonArgs := direct_pythonArgs h metadata analysis_mode in
                let spawned :=
                  [ WriteFile (tempFile h) t; Spawn (pythonPath h) pythonArgs ] in
                match runPythonScript h pythonArgs with
                | Resolved stdout _ =>
                    {| effects := spawned ++ [ Unlink (tempFile h) ];
                       result :=
                         Returns (text_response
                           (VStr ("# Direct Text Quality Analysis" ++ nl ++ nl
                                  ++ stdout))) |}
                | Rejected message _ stderr =>
                    {| effects := spawned ++ [ Unlink (tempFile h) ];
                       result :=
                         Throws (Err ("Direct analysis failed: " ++ message
                                      ++ nl ++ nl ++ "Stderr: "
                                      ++ stderr_or_none stderr)) |}
                | Pending => {| effects := spawned; result := Hangs |}
                end
            end
          else {| effects := []; result := Throws (Err "text is required") |}
      | None => {| effects := []; result := Throws (Err "text is required") |}
      end
  end.

(** ** [analyzeContentQuality] *)

Definition analyzer_script (h : Host) : string :=
  path_join h [dirname h; ".."; "tools"; "content-quality-analyzer.py"].

(** The argument vector built for the collection analyzer. *)
Definition quality_pythonArgs (h : Host)
    (chroma_directory collection_name analysis_mode : json)
    (verbose : option json) : list json :=
  [ JStr (analyzer_script h); collection_name; JStr "--chroma-dir";
    chroma_directory; JStr "--mode"; analysis_mode ]
  ++ (if truthy verbose then [ JStr "--verbose" ] else []).

Definition analyzeContentQuality (h : Host) (args : option json) : call :=
  match args with
  | None | Some JNull =>
      {| effects := []; result := Throws (TypeErr Destructure) |}
  | Some a =>
      let chroma_directory :=
        with_default (JStr default_chroma_directory) (field a "chroma_directory") in
      let analysis_mode := with_default (JStr "auto") (field a "analysis_mode") in
      let verbose := Some (with_default (JBool false) (field a "verbose")) in
      match field a "collection_name" with
      | Some collection_name =>
          if truthy (Some collection_name) then
            let pythonArgs :=
              quality_pythonArgs h chroma_directory collection_name
                analysis_mode verbose in
            let spawned := [ Spawn (pythonPath h) pythonArgs ] in
            match runPythonScript h pythonArgs with
            | Resolved stdout _ =>
                match to_string collection_name, to_string analysis_mode with
                | Some name, Some mode =>
                    {| effects := spawned;
                       result :=
                         Returns (text_response
                           (VStr ("# Content Quality Analysis Results" ++ nl ++ nl
                                  ++ "## Collection: " ++ name ++ nl
                                  ++ "## Mode: " ++ mode ++ nl ++ nl ++ stdout))) |}
                | _, _ =>
                    {| effects := spawned;
                       result :=
                         Throws (Err ("Analysis failed: " ++ to_primitive_message
                                      ++ nl ++ nl ++ "Stderr: None")) |}
                end
            | Rejected message _ stderr =>
                {| effects := spawned;
                   result :=
                     Throws (Err ("Analysis failed: " ++ message ++ nl ++ nl
                                  ++ "Stderr: " ++ stderr_or_none stderr)) |}
            | Pending => {| effects := spawned; result := Hangs |}
            end
          else
            {| effects := []; result := Throws (Err "collection_name is required") |}
      | None =>
          {| effects := []; result := Throws (Err "collection_name is required") |}
      end
  end.

(** ** [getAnalysisHelp] *)

Definition help_modes_lines : list string :=
  [ "# Analysis Modes";
    EmptyString;
    "## Available Analysis Modes";
    EmptyString;
    "### ðŸ¤– Auto Mode (Recommended)";
    "- **Usage**: `--mode auto`";
    "- **Description**: Automatically detects the best analysis mode based on your collection structure";
    "- **Detection Logic**:";
    "  - Multiple domains â†’ Competitive analysis";
    "  - Enhanced metadata â†’ Website analysis";
    "  - Basic collections â†’ Individual analysis";
    EmptyString;
    "### ðŸ“Š Individual Mode";
    "- **Usage**: `--mode individual`";
    "- **Description**: Analyzes individual content pieces across 5 quality dimensions";
    "- **Metrics**:";
    "  - Word Precision Score (0-1): Vocabulary specificity";
    "  - Modal Certainty Score (0-1): Confidence in statements";
    "  - Structure Efficiency Score (0-1): Content organization";
    "  - Punctuation Impact Score (0-1): Punctuation effectiveness";
    "  - Semantic Consistency Score (0-1): Topic coherence";
    "- **Best For**: Content audits, quality benchmarking, writer feedback";
    EmptyString;
    "### ðŸ¢ Website Mode";
    "- **Usage**: `--mode website`";
    "- **Description**: Analyzes content as a cohesive website strategy";
    "- **Metrics**:";
    "  - Content Coherence: How sections work together";
    "  - CTA Effectiveness: Call-to-action distribution";
    "  - Trust Building: Credibility indicators";
    "  - Content Structure: Organization variety";
    "- **Best For**: Website optimization, content strategy planning";
    EmptyString;
    "### ðŸ† Competitive Mode";
    "- **Usage**: `--mode competitive`";
    "- **Description**: Compares multiple competitors in one collection";
    "- **Metrics**:";
    "  - Market quality averages";
    "  - Competitor rankings";
    "  - Content gap analysis";
    "  - Strategy recommendations";
    "- **Best For**: Competitive intelligence, market research" ]%string.

Definition help_setup_lines : list string :=
  [ "# Setup Guide";
    EmptyString;
    "## Prerequisites";
    "- Python 3.8+";
    "- Chroma vector database with content collections";
    "- Node.js 18+ for MCP server";
    EmptyString;
    "## Installation";
    "1. Install MCP server dependencies:";
    "   ```bash";
    "   npm install";
    "   ```";
    EmptyString;
    "2. Ensure Python analyzer is available:";
    "   ```bash";
    "   python tools/content-quality-analyzer.py --help";
    "   ```";
    EmptyString;
    "## Quick Start";
    "1. List your collections:";
    "   ```";
    "   list_chroma_collections(chroma_directory=" ++ dq ++ "/path/to/chroma" ++ dq ++ ")";
    "   ```";
    EmptyString;
    "2. Run auto-analysis:";
    "   ```";
    "   analyze_content_quality(collection_name=" ++ dq ++ "my_collection" ++ dq ++ ")";
    "   ```";
    EmptyString;
    "3. Save results:";
    "   ```";
    "   analyze_content_quality(";
    "     collection_name=" ++ dq ++ "my_collection" ++ dq ++ ",";
    "     save_results=true,";
    "     analysis_mode=" ++ dq ++ "website" ++ dq;
    "   )";
    "   ```" ]%string.

Definition help_metadata_lines : list string :=
  [ "# Enhanced Metadata Structure";
    EmptyString;
    "## For Better Analysis Results";
    EmptyString;
    "### Hierarchical Metadata";
    "When creating collections, use this metadata structure:";
    "```json";
    "{";
    "  " ++ dq ++ "site_domain" ++ dq ++ ": " ++ dq ++ "example.com" ++ dq ++ ",";
    "  " ++ dq ++ "page_type" ++ dq ++ ": " ++ dq ++ "homepage" ++ dq ++ ",";
    "  " ++ dq ++ "hierarchy" ++ dq ++ ": " ++ dq ++ "1.0" ++ dq ++ ",";
    "  " ++ dq ++ "section_name" ++ dq ++ ": " ++ dq ++ "hero_section" ++ dq ++ ",";
    "  " ++ dq ++ "content_type" ++ dq ++ ": " ++ dq ++ "hero|value_proposition|service_info|trust_building" ++ dq ++ ",";
    "  " ++ dq ++ "page_flow_stage" ++ dq ++ ": " ++ dq ++ "entry_point|value_props|trust_building|conversion" ++ dq ++ ",";
    "  " ++ dq ++ "importance_weight" ++ dq ++ ": 100,";
    "  " ++ dq ++ "section_order" ++ dq ++ ": 1,";
    "  " ++ dq ++ "contains_cta" ++ dq ++ ": true,";
    "  " ++ dq ++ "trust_signals_count" ++ dq ++ ": 2,";
    "  " ++ dq ++ "semantic_tags" ++ dq ++ ": [" ++ dq ++ "legal" ++ dq ++ ", " ++ dq ++ "cta" ++ dq ++ ", " ++ dq ++ "problem_identification" ++ dq ++ "],";
    "  " ++ dq ++ "word_count" ++ dq ++ ": 45,";
    "  " ++ dq ++ "business_category" ++ dq ++ ": " ++ dq ++ "legal|roofing|healthcare|business" ++ dq;
    "}";
    "```";
    EmptyString;
    "### Hierarchy System";
    "- # headings â†’ " ++ dq ++ "1.0" ++ dq ++ ", " ++ dq ++ "2.0" ++ dq ++ ", " ++ dq ++ "3.0" ++ dq;
    "- ## headings â†’ " ++ dq ++ "1.1" ++ dq ++ ", " ++ dq ++ "1.2" ++ dq ++ ", " ++ dq ++ "2.1" ++ dq ++ ", " ++ dq ++ "2.2" ++ dq ++ "  ";
    "- ### headings â†’ " ++ dq ++ "1.1.1" ++ dq ++ ", " ++ dq ++ "1.2.1" ++ dq ++ ", " ++ dq ++ "2.1.1" ++ dq;
    "- #### headings â†’ " ++ dq ++ "1.1.1.1" ++ dq ++ ", " ++ dq ++ "1.2.1.1" ++ dq;
    EmptyString;
    "### Collection Naming";
    "- **Competitive Analysis**: `keyword_analysis` (all competitors)";
    "- **Individual Sites**: `brandname_pagetype`";
    "- **Market Research**: `industry_location_competitive`" ]%string.

Definition help_examples_lines : list string :=
  [ "# Usage Examples";
    EmptyString;
    "## Basic Analysis";
    "```javascript";
    "// List collections";
    "list_chroma_collections()";
    EmptyString;
    "// Auto-detect best analysis mode";
    "analyze_content_quality({";
    "  collection_name: " ++ dq ++ "roofing_dallas_competitive" ++ dq;
    "})";
    "```";
    EmptyString;
    "## Website Strategy Analysis";
    "```javascript";
    "analyze_content_quality({";
    "  collection_name: " ++ dq ++ "acme_roofing_homepage" ++ dq ++ ",";
    "  analysis_mode: " ++ dq ++ "website" ++ dq ++ ",";
    "  save_results: true";
    "})";
    "```";
    EmptyString;
    "## Competitive Intelligence";
    "```javascript";
    "analyze_content_quality({";
    "  collection_name: " ++ dq ++ "legal_phoenix_market" ++ dq ++ ",";
    "  analysis_mode: " ++ dq ++ "competitive" ++ dq ++ ",";
    "  verbose: true,";
    "  output_file: " ++ dq ++ "competitive_report.json" ++ dq;
    "})";
    "```";
    EmptyString;
    "## Quality Audit";
    "```javascript";
    "analyze_content_quality({";
    "  collection_name: " ++ dq ++ "blog_content_audit" ++ dq ++ ",";
    "  analysis_mode: " ++ dq ++ "individual" ++ dq ++ ",";
    "  save_results: true";
    "})";
    "```";
    EmptyString;
    "## Custom Directory";
    "```javascript";
    "analyze_content_quality({";
    "  chroma_directory: " ++ dq ++ "/path/to/my/chroma/db" ++ dq ++ ",";
    "  collection_name: " ++ dq ++ "my_collection" ++ dq ++ ",";
    "  analysis_mode: " ++ dq ++ "auto" ++ dq;
    "})";
    "```" ]%string.

Definition lines (l : list string) : string := String.concat nl l.

Definition help_modes : string := lines help_modes_lines.
Definition help_setup : string := lines help_setup_lines.
Definition help_metadata : string := lines help_metadata_lines.
Definition help_examples : string := lines help_examples_lines.

Definition helpContent : list (string * string) :=
  [ ("modes", help_modes); ("setup", help_setup);
    ("metadata", help_metadata); ("examples", help_examples) ].

Definition getAnalysisHelp (args : option json) : outcome tool_response :=
  match args with
  | None | Some JNull => Throws (TypeErr Destructure)
  | Some a =>
      let topic := with_default (JStr "modes") (field a "topic") in
      match to_string topic with
      | Some key =>
          Returns (text_response
                     (or_else (get_property helpContent key) (VStr help_modes)))
      | None => Throws (TypeErr ToPrimitive)
      end
  end.

(** ** Observations on a call *)

(** The four words of the mode selector. *)
Definition selector_words : list string :=
  [ "auto"; "individual"; "website"; "competitive" ].

(** The argument vectors of the processes a call started. *)
Definition spawned (c : call) : list (list json) :=
  flat_map (fun e => match e with
                     | Spawn _ args => [ args ]
                     | _ => []
                     end) (effects c).

(** Data chunks, the events that do not settle the promise. *)
Inductive data_chunk : Type :=
| OutChunk (chunk : string)
| ErrChunk (chunk : string).

Definition data_event (d : data_chunk) : proc_event :=
  match d with
  | OutChunk s => StdoutData s
  | ErrChunk s => StderrData s
  end.

Fixpoint stdout_of (ds : list data_chunk) : string :=
  match ds with
  | [] => EmptyString
  | OutChunk s :: r => s ++ stdout_of r
  | ErrChunk _ :: r => stdout_of r
  end.

Fixpoint stderr_of (ds : list data_chunk) : string :=
  match ds with
  | [] => EmptyString
  | OutChunk _ :: r => stderr_of r
  | ErrChunk s :: r => s ++ stderr_of r
  end.

(** [path.join] on POSIX for an absolute first segment: the segments are
    joined and the result normalized. *)
Fixpoint split_slash (s cur : string) : list string :=
  match s with
  | EmptyString => [ cur ]
  | String c r =>
      if Ascii.eqb c "/"%char then cur :: split_slash r EmptyString
      else split_slash r (cur ++ String c EmptyString)
  end.

Definition resolve_component (acc : list string) (seg : string) : list string :=
  if String.eqb seg EmptyString || String.eqb seg "." then acc
  else if String.eqb seg ".." then tl acc
  else seg :: acc.

Definition posix_join (segments : list string) : string :=
  "/" ++ String.concat "/"
           (rev (fold_left resolve_component
                   (flat_map (fun s => split_slash s EmptyString) segments) [])).

(** [JSON.stringify] for values whose strings need no escaping. *)
Fixpoint print_json (v : json) : string :=
  match v with
  | JNull => "null"
  | JBool true => "true"
  | JBool false => "false"
  | JNum n => decimal n
  | JStr s => dq ++ s ++ dq
  | JArr xs => "[" ++ String.concat "," (List.map print_json xs) ++ "]"
  | JObj props =>
      "{" ++ String.concat ","
               (List.map (fun p => dq ++ fst p ++ dq ++ ":" ++ print_json (snd p))
                  props) ++ "}"
  end.

(** A host for examples: a fixed clock, a writable temp directory, and an
    analyzer that prints one line and exits with the code 0 when it is
    given a [--mode], and exits with the code 2 otherwise. *)
Definition sample_child (command : string) (args : list json)
  : list proc_event :=
  match args with
  | _ :: _ :: JStr "--mode" :: _ :: _
  | _ :: _ :: JStr "--chroma-dir" :: _ :: JStr "--mode" :: _ :: _ =>
      [ StdoutData "Overall Quality: "; StdoutData "0.612"; Close (Some 0%Z) ]
  | _ =>
      [ StderrData "usage: analyzer --mode MODE"; Close (Some 2%Z) ]
  end.

Definition sample_host : Host :=
  {| dirname := "/srv/mcp/src";
     path_join := posix_join;
     tmpdir := "/tmp";
     now := 1700000000000%Z;
     env_python_path := None;
     json_stringify := print_json;
     write_file := fun _ _ => None;
     child := sample_child |}.


(** ** [listChromaCollections] *)

Definition list_pythonArgs (h : Host) (chroma_directory : json) : list json :=
  [ JStr (analyzer_script h); JStr "--chroma-dir"; chroma_directory ].

Definition listChromaCollections (h : Host) (args : option json) : call :=
  match args with
  | None | Some JNull =>
      {| effects := []; result := Throws (TypeErr Destructure) |}
  | Some a =>
      let chroma_directory :=
        with_default (JStr default_chroma_directory) (field a "chroma_directory") in
      let pythonArgs := list_pythonArgs h chroma_directory in
      let spawned := [ Spawn (pythonPath h) pythonArgs ] in
      match runPythonScript h pythonArgs with
      | Resolved stdout _ =>
          {| effects := spawned;
             result :=
               Returns (text_response
                 (VStr ("# Available Chroma Collections" ++ nl ++ nl ++ stdout))) |}
      | Rejected message _ stderr =>
          {| effects := spawned;
             result :=
               Throws (Err ("Failed to list collections: " ++ message ++ nl ++ nl
                            ++ "Stderr: " ++ stderr_or_none stderr)) |}
      | Pending => {| effects := spawned; result := Hangs |}
      end
  end.

(** ** The [CallToolRequestSchema] handler *)

(** The two error codes the handler constructs an [McpError] with, and
    the error itself: the code and the text given to the constructor. *)
Inductive error_code : Type := MethodNotFound | InternalError.

Record mcp_error := { mcp_code : error_code; mcp_text : string }.

(** What the handler reads from errors it did not build itself: the
    [message] of an [McpError] (formatted by the SDK from code and text)
    and the engine's message for a failed destructuring in a tool. *)
Record Runtime := {
  mcp_message : error_code -> string -> string;
  destructure_message : string -> string
}.

(** [error.message] of what a tool threw. *)
Definition thrown_message (k : Runtime) (tool : string) (e : thrown) : string :=
  match e with
  | Err m => m
  | TypeErr ToPrimitive => to_primitive_message
  | TypeErr Destructure => destructure_message k tool
  end.

Inductive tool_outcome : Type :=
| ToolReturns (r : tool_response)
| ToolThrows (e : mcp_error)
| ToolHangs.

Record tool_call := {
  tool_effects : list effect;
  tool_result : tool_outcome
}.

(** The [switch]: the tool a name selects, none for the [default] case. *)
Definition handler_for (h : Host) (name : string)
  : option (option json -> call) :=
  if String.eqb name "analyze_content_quality" then Some (analyzeContentQuality h)
  else if String.eqb name "analyze_text_direct" then Some (analyzeTextDirect h)
  else if String.eqb name "list_chroma_collections" then Some (listChromaCollections h)
  else if String.eqb name "get_analysis_help"
  then Some (fun args => {| effects := []; result := getAnalysisHelp args |})
  else None.

(** The handler: [try { switch ... } catch (error) { throw new McpError(
    InternalError, ...) }], the [switch] read as closed before [catch].
    The [McpError] of the [default] case is thrown inside the [try]. *)
Definition callTool (k : Runtime) (h : Host) (name : string)
    (args : option json) : tool_call :=
  let failed (message : string) :=
    ToolThrows {| mcp_code := InternalError;
                  mcp_text := "Tool execution failed: " ++ message |} in
  match handler_for h name with
  | Some handler =>
      let c := handler args in
      {| tool_effects := effects c;
         tool_result :=
           match result c with
           | Returns r => ToolReturns r
           | Throws e => failed (thrown_message k name e)
           | Hangs => ToolHangs
           end |}
  | None =>
      {| tool_effects := [];
         tool_result :=
           failed (mcp_message k MethodNotFound ("Unknown tool: " ++ name)) |}
  end.

(** The SDK's message format and V8's wording, for examples. *)
Definition sample_runtime : Runtime :=
  {| mcp_message := fun code text =>
       "MCP error "
       ++ match code with
          | MethodNotFound => "-32601"
          | InternalError => "-32603"
          end ++ ": " ++ text;
     destructure_message := fun tool =>
       "Cannot destructure property '"
       ++ (if String.eqb tool "analyze_text_direct" then "text"
           else if String.eqb tool "get_analysis_help" then "topic"
           else "chroma_directory")
       ++ "' of 'args' as it is undefined." |}.

(** ** Schema defaults, as a client applies them *)

(** Add a property's declared [default] to an arguments object that
    lacks the property. *)
Definition fill_default (a : json) (p : property_schema) : json :=
  match a, p_default p with
  | JObj props, Some d =>
      match assoc (p_name p) props with
      | Some _ => a
      | None => JObj (props ++ [ (p_name p, d) ])
      end
  | _, _ => a
  end.

Definition fill_defaults (tool : string) (a : json) : json :=
  match find_tool tool with
  | Some t => fold_left fill_default (t_properties t) a
  | None => a
  end.

(** The default the first property of that name with a default declares. *)
Fixpoint declared_default (ps : list property_schema) (k : string)
  : option json :=
  match ps with
  | [] => None
  | p :: r =>
      if String.eqb (p_name p) k then
        match p_default p with
        | Some d => Some d
        | None => declared_default r k
        end
      else declared_default r k
  end.

(** ** More observations *)

Definition is_string (v : json) : bool :=
  match v with
  | JStr _ => true
  | _ => false
  end.

Definition is_data (e : proc_event) : bool :=
  match e with
  | StdoutData _ | StderrData _ => true
  | _ => false
  end.

(** A host whose analyzer accepts the individual mode of the direct
    analyzer only, and exits with the code 2 otherwise. *)
Definition strict_host : Host :=
  {| dirname := dirname sample_host;
     path_join := path_join sample_host;
     tmpdir := tmpdir sample_host;
     now := now sample_host;
     env_python_path := env_python_path sample_host;
     json_stringify := json_stringify sample_host;
     write_file := write_file sample_host;
     child := fun _ args =>
       match args with
       | [ _; _; JStr "--mode"; JStr "individual" ] =>
           [ StdoutData "Overall Quality: 0.612"; Close (Some 0%Z) ]
       | _ =>
           [ StdoutData "usage"; StderrData "error: invalid mode";
             Close (Some 2%Z) ]
       end |}.


End Server.

(** * The scoring and aggregation engine

    The analyzer scripts under [tools/] are not among the sources.  Every
    definition of this module is written from the specification; the
    reference tables, calibration curves and weights it leaves open are
    fields of [Config]. *)

Module Engine.

(** ** Data model *)

(** Modelled from the spec: a metadata value, scalar or nested (the
    Document type of the absent analyzer). *)
Inductive meta_value : Type :=
| MStr (s : string)
| MNum (q : Q)
| MBool (b : bool)
| MNested (entries : list (string * meta_value)).

(** Modelled from the spec: a Document of the absent analyzer, with its
    identifier, raw text and open metadata mapping. *)
Record Document := {
  doc_id : string;
  doc_text : string;
  doc_metadata : gmap string meta_value
}.

(** Modelled from the spec: the three analysis strategies of the absent
    analyzer. *)
Inductive Mode : Type := Individual | Website | Competitive.

(** Modelled from the spec: the ScoreVector of the absent DocumentScorer,
    five dimension scores and the derived overall score. *)
Record ScoreVector := {
  word_precision : Q;
  modal_certainty : Q;
  structure_efficiency : Q;
  punctuation_impact : Q;
  semantic_consistency : Q;
  overall : Q
}.

(** Modelled from the spec: the configurable weights of the overall score
    in the absent DocumentScorer, one per dimension. *)
Record Weights := {
  w_word_precision : Q;
  w_modal_certainty : Q;
  w_structure_efficiency : Q;
  w_punctuation_impact : Q;
  w_semantic_consistency : Q
}.

(** Modelled from the spec: the default weights, 0.2 each. *)
Definition default_weights : Weights :=
  {| w_word_precision := 2 # 10; w_modal_certainty := 2 # 10;
     w_structure_efficiency := 2 # 10; w_punctuation_impact := 2 # 10;
     w_semantic_consistency := 2 # 10 |}.

(** Modelled from the spec: the reference data and calibration the absent
    DocumentScorer reads, which the design leaves to the implementer:
    lexicons and marker tables, the vague-word penalty, epsilon, the three
    pre-normalized structure sub-metrics with their fixed weights, the
    exclamation penalty curve, the segment similarity and the weights of
    the overall score. *)
Record Config := {
  precise_words : list string;
  vague_words : list string;
  certainty_markers : list string;
  hedge_markers : list string;
  penalty_weight : Q;
  epsilon : Q;
  variance_score : string -> Q;
  boundary_score : string -> Q;
  transition_score : string -> Q;
  structure_weights : Q * Q * Q;
  exclamation_penalty : Q -> Q;
  similarity : list string -> list string -> Q;
  weights : Weights
}.

(** The closed interval [0,1]. *)
Definition in_unit (q : Q) : Prop := (0 <= q /\ q <= 1)%Q.

(** Modelled from the spec: what the design asks of a configuration of the
    absent DocumentScorer: epsilon positive, sub-metrics and similarity
    normalized to [0,1], the penalty curve a factor in [0,1], structure
    weights a convex combination, overall weights non-negative and not all
    zero. *)
Record valid_config (cfg : Config) : Prop := {
  epsilon_pos : (0 < epsilon cfg)%Q;
  variance_unit : forall t, in_unit (variance_score cfg t);
  boundary_unit : forall t, in_unit (boundary_score cfg t);
  transition_unit : forall t, in_unit (transition_score cfg t);
  structure_weights_convex :
    let '(a, b, c) := structure_weights cfg in
    (0 <= a /\ 0 <= b /\ 0 <= c /\ a + b + c == 1)%Q;
  penalty_unit : forall d, in_unit (exclamation_penalty cfg d);
  similarity_unit : forall a b, in_unit (similarity cfg a b);
  weights_nonneg :
    (0 <= w_word_precision (weights cfg)
     /\ 0 <= w_modal_certainty (weights cfg)
     /\ 0 <= w_structure_efficiency (weights cfg)
     /\ 0 <= w_punctuation_impact (weights cfg)
     /\ 0 <= w_semantic_consistency (weights cfg))%Q;
  weights_total_pos :
    (0 < w_word_precision (weights cfg) + w_modal_certainty (weights cfg)
         + w_structure_efficiency (weights cfg)
         + w_punctuation_impact (weights cfg)
         + w_semantic_consistency (weights cfg))%Q
}.

(** ** Text features *)

(** Modelled from the spec: character classes for the tokenization of the
    absent DocumentScorer: upper-case letters, word characters (letters
    and digits), lower-casing, ASCII punctuation marks, sentence ends. *)
Definition is_upper (c : ascii) : bool :=
  (65 <=? nat_of_ascii c)%nat && (nat_of_ascii c <=? 90)%nat.

Definition is_word_char (c : ascii) : bool :=
  is_upper c
  || ((97 <=? nat_of_ascii c)%nat && (nat_of_ascii c <=? 122)%nat)
  || ((48 <=? nat_of_ascii c)%nat && (nat_of_ascii c <=? 57)%nat).

Definition lower (c : ascii) : ascii :=
  if is_upper c then ascii_of_nat (nat_of_ascii c + 32) else c.

Definition is_punctuation (c : ascii) : bool :=
  let n := nat_of_ascii c in
  ((33 <=? n) && (n <=? 47) || (58 <=? n) && (n <=? 64)
   || (91 <=? n) && (n <=? 96) || (123 <=? n) && (n <=? 126))%nat.

Definition is_sentence_end (c : ascii) : bool :=
  existsb (Ascii.eqb c) [ "."%char; "!"%char; "?"%char ].

Definition chars (s : string) : list ascii := list_ascii_of_string s.

(** Cut a character list at the separators. *)
Fixpoint split_on (sep : ascii -> bool) (cs cur : list ascii)
  : list (list ascii) :=
  match cs with
  | [] => [ rev cur ]
  | c :: r =>
      if sep c then rev cur :: split_on sep r []
      else split_on sep r (c :: cur)
  end.

Definition nonempty {A : Type} (l : list A) : bool :=
  match l with
  | [] => false
  | _ => true
  end.

(** Modelled from the spec: tokenization of the absent DocumentScorer,
    lower-cased maximal runs of letters and digits. *)
Definition tokenize_chars (cs : list ascii) : list string :=
  List.map string_of_list_ascii
    (List.filter nonempty
       (split_on (fun c => negb (is_word_char c)) (List.map lower cs) [])).

Definition tokenize (text : string) : list string := tokenize_chars (chars text).

(** Modelled from the spec: the segments of a text for the absent
    DocumentScorer, its sentences as token lists, empty ones dropped. *)
Definition segments (text : string) : list (list string) :=
  List.filter nonempty
    (List.map tokenize_chars (split_on is_sentence_end (chars text) [])).

(** Modelled from the spec: membership of a token in a reference table of
    the absent DocumentScorer, and the number of tokens found in it. *)
Definition in_table (table : list string) (token : string) : bool :=
  existsb (String.eqb token) table.

Definition count_in (table tokens : list string) : nat :=
  List.length (List.filter (in_table table) tokens).

(** Counts as rationals, clamping to [0,1], sums and means. *)
Definition of_nat (n : nat) : Q := inject_Z (Z.of_nat n).

Definition clamp01 (q : Q) : Q := Qmax 0 (Qmin 1 q).

Definition Qsum (l : list Q) : Q := fold_right Qplus 0%Q l.

Definition mean (l : list Q) : Q :=
  match l with
  | [] => 0%Q
  | _ => (Qsum l / of_nat (List.length l))%Q
  end.

(** The pairs of different positions of a list. *)
Fixpoint pairs {A : Type} (l : list A) : list (A * A) :=
  match l with
  | [] => []
  | x :: r => List.map (pair x) r ++ pairs r
  end.

(** The different characters of a list, each once. *)
Fixpoint distinct (cs : list ascii) : list ascii :=
  match cs with
  | [] => []
  | c :: r => if existsb (Ascii.eqb c) r then distinct r else c :: distinct r
  end.

(** ** DocumentScorer *)

(** Modelled from the spec: Word Precision of the absent DocumentScorer,
    (precise - vague * penalty) over the token count, clamped; no token
    gives 0. *)
Definition score_word_precision (cfg : Config) (text : string) : Q :=
  let tokens := tokenize text in
  match tokens with
  | [] => 0%Q
  | _ =>
      clamp01 ((of_nat (count_in (precise_words cfg) tokens)
                - of_nat (count_in (vague_words cfg) tokens) * penalty_weight cfg)
               / of_nat (List.length tokens))
  end.

(** Modelled from the spec: the numbers of certainty and hedging markers
    the absent DocumentScorer counts in a text. *)
Definition certainty_count (cfg : Config) (text : string) : nat :=
  count_in (certainty_markers cfg) (tokenize text).

Definition hedge_count (cfg : Config) (text : string) : nat :=
  count_in (hedge_markers cfg) (tokenize text).

(** Modelled from the spec: Modal Certainty of the absent DocumentScorer,
    certainty / (certainty + hedge + epsilon), and the neutral midpoint
    when the text has no marker at all. *)
Definition score_modal_certainty (cfg : Config) (text : string) : Q :=
  let c := certainty_count cfg text in
  let h := hedge_count cfg text in
  match (c + h)%nat with
  | O => 1 # 2
  | _ => (of_nat c / (of_nat c + of_nat h + epsilon cfg))%Q
  end.

(** Modelled from the spec: Structure Efficiency of the absent
    DocumentScorer, the fixed weighted sum of its three sub-metrics. *)
Definition score_structure_efficiency (cfg : Config) (text : string) : Q :=
  let '(a, b, c) := structure_weights cfg in
  (a * variance_score cfg text + b * boundary_score cfg text
   + c * transition_score cfg text)%Q.

(** Modelled from the spec: the punctuation marks of a text and its
    density of exclamation marks, for the absent DocumentScorer. *)
Definition punctuation_marks (text : string) : list ascii :=
  List.filter is_punctuation (chars text).

Definition exclamation_density (text : string) : Q :=
  (of_nat (List.length (List.filter (Ascii.eqb "!"%char) (chars text)))
   / of_nat (List.length (chars text)))%Q.

(** Modelled from the spec: Punctuation Impact of the absent
    DocumentScorer, distinct marks over text length, reduced by the
    exclamation penalty; no punctuation gives 0. *)
Definition score_punctuation_impact (cfg : Config) (text : string) : Q :=
  match punctuation_marks text with
  | [] => 0%Q
  | marks =>
      (of_nat (List.length (distinct marks)) / of_nat (List.length (chars text))
       * exclamation_penalty cfg (exclamation_density text))%Q
  end.

(** Modelled from the spec: Semantic Consistency of the absent
    DocumentScorer, the mean pairwise similarity of the segments, 1 for a
    text without an internal partition. *)
Definition score_semantic_consistency (cfg : Config) (text : string) : Q :=
  match pairs (segments text) with
  | [] => 1%Q
  | ps => mean (List.map (fun p => similarity cfg (fst p) (snd p)) ps)
  end.

(** Modelled from the spec: the sum of the configured weights of the
    absent DocumentScorer. *)
Definition weight_total (w : Weights) : Q :=
  (w_word_precision w + w_modal_certainty w + w_structure_efficiency w
   + w_punctuation_impact w + w_semantic_consistency w)%Q.

(** Modelled from the spec: Overall of the absent DocumentScorer, the
    weighted arithmetic mean of the five dimension scores. *)
Definition overall_of (w : Weights) (wp mc se pi sc : Q) : Q :=
  ((w_word_precision w * wp + w_modal_certainty w * mc
    + w_structure_efficiency w * se + w_punctuation_impact w * pi
    + w_semantic_consistency w * sc) / weight_total w)%Q.

(** Modelled from the spec: the all-zero ScoreVector the absent
    DocumentScorer gives the empty text. *)
Definition zero_vector : ScoreVector :=
  {| word_precision := 0; modal_certainty := 0; structure_efficiency := 0;
     punctuation_impact := 0; semantic_consistency := 0; overall := 0 |}.

(** Modelled from the spec: [score] of the absent DocumentScorer; the
    empty text is defined as the all-zero vector. *)
Definition score (cfg : Config) (d : Document) : ScoreVector :=
  match doc_text d with
  | EmptyString => zero_vector
  | text =>
      let wp := score_word_precision cfg text in
      let mc := score_modal_certainty cfg text in
      let se := score_structure_efficiency cfg text in
      let pi := score_punctuation_impact cfg text in
      let sc := score_semantic_consistency cfg text in
      {| word_precision := wp; modal_certainty := mc;
         structure_efficiency := se; punctuation_impact := pi;
         semantic_consistency := sc;
         overall := overall_of (weights cfg) wp mc se pi sc |}
  end.

(** ** ModeDetector *)

(** Modelled from the spec: the [site_domain] a Document of the absent
    analyzer declares; a value that is not a string counts as absent. *)
Definition site_domain_of (d : Document) : option string :=
  match doc_metadata d !! "site_domain" with
  | Some (MStr s) => Some s
  | _ => None
  end.

(** Modelled from the spec: the set of distinct [site_domain] values of a
    collection, as the absent ModeDetector scans it. *)
Definition distinct_domains (c : list Document) : gset string :=
  list_to_set (omap site_domain_of c).

(** Modelled from the spec: the metadata keys the absent ModeDetector
    counts as hierarchical. *)
Definition hierarchy_keys : list string :=
  [ "hierarchy"; "section_order"; "content_type" ].

(** Modelled from the spec: whether a Document carries hierarchical
    metadata, for the absent ModeDetector. *)
Definition carries_hierarchy (d : Document) : bool :=
  existsb (fun k => bool_decide (is_Some (doc_metadata d !! k))) hierarchy_keys.

(** Modelled from the spec: [detect] of the absent ModeDetector, an
    ordered decision table. *)
Definition detect (c : list Document) : Mode :=
  if decide (1 < size (distinct_domains c))%nat then Competitive
  else if existsb carries_hierarchy c then Website
  else Individual.

(** ** AggregationReporter *)










(** ** The pipeline *)










(** ** Collection-level metadata, as propositions *)

(** Modelled from the spec: a collection of the absent analyzer in which
    two documents declare different [site_domain] values. *)
Definition multi_domain (c : list Document) : Prop :=
  exists d1 d2 s1 s2,
    In d1 c /\ In d2 c
    /\ site_domain_of d1 = Some s1 /\ site_domain_of d2 = Some s2
    /\ s1 <> s2.

(** Modelled from the spec: a collection of the absent analyzer in which
    some document carries [hierarchy], [section_order] or [content_type]. *)
Definition hierarchical (c : list Document) : Prop :=
  exists d,
    In d c
    /\ (is_Some (doc_metadata d !! "hierarchy")
        \/ is_Some (doc_metadata d !! "section_order")
        \/ is_Some (doc_metadata d !! "content_type")).

(** ** Sample data *)

(** A configuration for examples: small lexicons, the marker tables the
    specification names, a constant variance score, a paragraph-break test, the
    density of three transition words, a penalty that is 1 up to one
    exclamation mark in twenty characters and falls off as the inverse of
    the density beyond, and the share of a segment's tokens found in the
    other segment as similarity. *)
Definition sample_boundary (text : string) : Q :=
  if existsb (Ascii.eqb (ascii_of_nat 10)) (chars text) then 1 else 0.

Definition sample_transition (text : string) : Q :=
  match tokenize text with
  | [] => 0
  | tokens =>
      clamp01 (of_nat (count_in [ "however"; "therefore"; "then" ] tokens)
               / of_nat (List.length tokens))
  end.

Definition sample_penalty (density : Q) : Q :=
  if Qle_bool density (1 # 20) then 1 else ((1 # 20) / density)%Q.

Definition sample_similarity (a b : list string) : Q :=
  match a with
  | [] => 0
  | _ => (of_nat (count_in b a) / of_nat (List.length a))%Q
  end.

Definition sample_config : Config :=
  {| precise_words := [ "specific"; "measurable"; "validated"; "benchmark"; "three" ];
     vague_words := [ "thing"; "stuff"; "very"; "really"; "today" ];
     certainty_markers := [ "will"; "is"; "must"; "demonstrates" ];
     hedge_markers := [ "might"; "perhaps"; "could"; "seems" ];
     penalty_weight := 1 # 2;
     epsilon := 1 # 100;
     variance_score := fun _ => 1 # 2;
     boundary_score := sample_boundary;
     transition_score := sample_transition;
     structure_weights := (1 # 2, 1 # 4, 1 # 4);
     exclamation_penalty := sample_penalty;
     similarity := sample_similarity;
     weights := default_weights |}.

Definition doc (id text : string) (meta : list (string * meta_value)) : Document :=
  {| doc_id := id; doc_text := text; doc_metadata := list_to_map meta |}.

Definition doc_contact : Document :=
  doc "d1" "Contact us today! Call now!!!" [].

Definition doc_guide : Document :=
  doc "d2" "This guide outlines three specific, measurable steps for improving process X, each validated against industry benchmark Y." [].

Definition doc_a_home : Document :=
  doc "a1" "Our roofing service is licensed. It will protect your home."
    [ ("site_domain", MStr "a.com"); ("hierarchy", MStr "1.0") ].

Definition doc_a_about : Document :=
  doc "a2" "We might help." [ ("site_domain", MStr "a.com"); ("section_order", MNum 2) ].

Definition doc_b_home : Document :=
  doc "b1" "Perhaps this could work." [ ("site_domain", MStr "b.com") ].

End Engine.

(** * Properties of the server *)

Section ServerFacts.
Import JS Server.

Lemma append_cons (x : ascii) (a b : string) :
  String x a ++ b = String x (a ++ b).
Proof. reflexivity. Qed.

Lemma append_assoc (a b c : string) : (a ++ b) ++ c = a ++ (b ++ c).
Proof.
  induction a as [| x a IH]; [reflexivity |].
  now rewrite !append_cons, IH.
Qed.

Lemma append_empty_r (a : string) : a ++ EmptyString = a.
Proof.
  induction a as [| x a IH]; [reflexivity |].
  now rewrite append_cons, IH.
Qed.

(** ** [runPythonScript] *)

(** Data events only grow the two accumulators. *)
Lemma run_data (ds : list data_chunk) (st : run_state) :
  fold_left on_event (List.map data_event ds) st
  = {| acc_stdout := acc_stdout st ++ stdout_of ds;
       acc_stderr := acc_stderr st ++ stderr_of ds;
       settled := settled st |}.
Proof.
  revert st. induction ds as [| d ds IH]; intros st; simpl.
  - rewrite !append_empty_r. now destruct st.
  - rewrite IH. destruct d; simpl; now rewrite append_assoc.
Qed.

(** A settled promise keeps its value whatever follows. *)
Lemma run_settled (evs : list proc_event) (st : run_state) :
  settled st <> Pending ->
  settled (fold_left on_event evs st) = settled st.
Proof.
  revert st. induction evs as [| e evs IH]; intros st Hst; [reflexivity |].
  simpl. assert (Hstep : settled (on_event st e) = settled st).
  { destruct e as [d | d | code | m]; simpl; try reflexivity.
    - destruct code as [[| p | p] |]; unfold settle;
        destruct (settled st) eqn:E; simpl; congruence.
    - unfold settle. destruct (settled st) eqn:E; simpl; congruence. }
  rewrite IH; [exact Hstep | now rewrite Hstep].
Qed.

(** The promise after a run of data followed by one more event. *)
Lemma run_first (ds : list data_chunk) (e : proc_event) (rest : list proc_event) :
  settled (on_event (fold_left on_event (List.map data_event ds) run_init) e) <> Pending ->
  settled (run_events ((List.map data_event ds ++ e :: rest)%list))
  = settled (on_event (fold_left on_event (List.map data_event ds) run_init) e).
Proof.
  intros H. unfold run_events. rewrite fold_left_app. simpl.
  now apply run_settled.
Qed.

(** Every event list is data only, or data up to a first [close] or
    [error]. *)
Lemma events_split (evs : list proc_event) :
  (exists ds, evs = List.map data_event ds)
  \/ (exists ds e rest,
        evs = (List.map data_event ds ++ e :: rest)%list
        /\ ((exists code, e = Close code) \/ (exists m, e = ProcError m))).
Proof.
  induction evs as [| e evs IH].
  - left. now exists [].
  - destruct e as [d | d | code | m].
    + destruct IH as [[ds ->] | (ds & e & rest & -> & He)].
      * left. now exists (OutChunk d :: ds).
      * right. exists (OutChunk d :: ds), e, rest. split; [reflexivity | exact He].
    + destruct IH as [[ds ->] | (ds & e & rest & -> & He)].
      * left. now exists (ErrChunk d :: ds).
      * right. exists (ErrChunk d :: ds), e, rest. split; [reflexivity | exact He].
    + right. exists [], (Close code), evs. split; [reflexivity | left; eauto].
    + right. exists [], (ProcError m), evs. split; [reflexivity | right; eauto].
Qed.

Lemma run_close_zero ds rest :
  settled (run_events ((List.map data_event ds ++ Close (Some 0%Z) :: rest)%list))
  = Resolved (stdout_of ds) (stderr_of ds).
Proof.
  rewrite run_first; rewrite run_data; simpl; [reflexivity | discriminate].
Qed.

Lemma run_close_nonzero ds code rest :
  code <> Some 0%Z ->
  settled (run_events ((List.map data_event ds ++ Close code :: rest)%list))
  = Rejected ("Python script exited with code " ++ code_text code)
      (stdout_of ds) (stderr_of ds).
Proof.
  intros Hc.
  rewrite run_first; rewrite run_data; simpl;
    destruct code as [[| p | p] |]; simpl; try reflexivity; try discriminate;
    now contradiction Hc.
Qed.

Lemma run_error ds m rest :
  settled (run_events ((List.map data_event ds ++ ProcError m :: rest)%list))
  = Rejected ("Failed to start Python script: " ++ m)
      (stdout_of ds) (stderr_of ds).
Proof.
  rewrite run_first; rewrite run_data; simpl; [reflexivity | discriminate].
Qed.

Lemma run_data_pending ds :
  settled (run_events (List.map data_event ds)) = Pending.
Proof. unfold run_events. now rewrite run_data. Qed.



(** ** [getAnalysisHelp] *)

(** The four help texts are not empty, hence truthy. *)
Lemma helpContent_truthy (key text : string) :
  assoc key helpContent = Some text -> String.eqb text EmptyString = false.
Proof.
  unfold helpContent, assoc.
  repeat (destruct (String.eqb _ key); [intros [= <-]; reflexivity |]).
  discriminate.
Qed.

(** A topic that names one of the four entries selects it. *)
Lemma getAnalysisHelp_known (a : json) (key text : string) :
  a <> JNull ->
  to_string (with_default (JStr "modes") (field a "topic")) = Some key ->
  assoc key helpContent = Some text ->
  getAnalysisHelp (Some a) = Returns (text_response (VStr text)).
Proof.
  intros Ha Hkey Hown. unfold getAnalysisHelp.
  destruct a; try congruence; rewrite Hkey; unfold get_property, or_else;
    now rewrite Hown, (helpContent_truthy _ _ Hown).
Qed.

(** A topic whose key is neither one of the four entries nor a member of
    [Object.prototype] falls back to the modes help; so does an omitted
    topic. *)
Lemma getAnalysisHelp_fallback (a : json) (key : string) :
  a <> JNull ->
  to_string (with_default (JStr "modes") (field a "topic")) = Some key ->
  assoc key helpContent = None ->
  existsb (String.eqb key) object_prototype_keys = false ->
  getAnalysisHelp (Some a) = Returns (text_response (VStr help_modes)).
Proof.
  intros Ha Hkey Hown Hproto. unfold getAnalysisHelp.
  destruct a; try congruence; rewrite Hkey; unfold get_property;
    now rewrite Hown, Hproto.
Qed.

Lemma getAnalysisHelp_omitted_topic :
  getAnalysisHelp (Some (JObj [])) = Returns (text_response (VStr help_modes)).
Proof. reflexivity. Qed.

(** Without an arguments object the destructuring throws; so does a topic
    object that has no primitive value. *)
Lemma getAnalysisHelp_throws :
  getAnalysisHelp None = Throws (TypeErr Destructure)
  /\ getAnalysisHelp (Some (JObj [ ("topic", JObj [ ("toString", JNull) ]) ]))
     = Throws (TypeErr ToPrimitive).
Proof. split; reflexivity. Qed.

(** C10 (failing input).  For the topic [toString], a value outside
    modes, setup, metadata and examples, [getAnalysisHelp] does not fall
    back to the modes help: the lookup finds the member inherited from
    [Object.prototype], which is truthy, and returns it as the text. *)
Theorem getAnalysisHelp_inherited_topic :
  getAnalysisHelp (Some (JObj [ ("topic", JStr "toString") ]))
  = Returns (text_response (VInherited "toString"))
  /\ getAnalysisHelp (Some (JObj [ ("topic", JStr "toString") ]))
     <> Returns (text_response (VStr help_modes)).
Proof. split; [reflexivity | discriminate]. Qed.

(** ** [analyzeTextDirect] and [analyzeContentQuality] *)

Lemma existsb_eqb_In (s : string) (l : list string) :
  existsb (String.eqb s) l = true <-> In s l.
Proof.
  rewrite existsb_exists. split.
  - intros (x & Hx & He). apply String.eqb_eq in He. now subst.
  - intros H. exists s. split; [exact H | apply String.eqb_refl].
Qed.


(** The direct analyzer receives [--mode] at index 2 and the mode at
    index 3. *)
Lemma direct_pythonArgs_mode (h : Host) (metadata mode : json) :
  nth_error (direct_pythonArgs h metadata mode) 2 = Some (JStr "--mode")
  /\ nth_error (direct_pythonArgs h metadata mode) 3 = Some mode.
Proof. split; reflexivity. Qed.

(** The collection analyzer receives [--mode] at index 4 and the mode at
    index 5. *)
Lemma quality_pythonArgs_mode (h : Host) (dir name mode : json) (verbose : option json) :
  nth_error (quality_pythonArgs h dir name mode verbose) 4 = Some (JStr "--mode")
  /\ nth_error (quality_pythonArgs h dir name mode verbose) 5 = Some mode.
Proof. split; reflexivity. Qed.

(** What [analyzeTextDirect] starts: nothing when the text is falsy or
    the file cannot be written, else one analyzer on the argument vector
    built from the metadata and the mode as given. *)
Lemma analyzeTextDirect_spawned (h : Host) (a : json) :
  spawned (analyzeTextDirect h (Some a)) = []
  \/ spawned (analyzeTextDirect h (Some a))
     = [ direct_pythonArgs h (with_default (JObj []) (field a "metadata"))
           (with_default (JStr "individual") (field a "analysis_mode")) ].
Proof.
  unfold analyzeTextDirect.
  destruct a; try (left; reflexivity);
    (destruct (field _ "text") as [t |]; [| left; reflexivity];
     destruct (truthy (Some t)); [| left; reflexivity];
     destruct (write_file h (tempFile h) t); [left; reflexivity |];
     right; destruct (runPythonScript h _); reflexivity).
Qed.




(** What [analyzeContentQuality] starts: nothing without a collection
    name, else one analyzer, whose mode is the selector as given, or
    [auto] when the caller gave none. *)
Lemma analyzeContentQuality_spawned (h : Host) (a : json) :
  truthy (field a "collection_name") = true ->
  exists args,
    spawned (analyzeContentQuality h (Some a)) = [ args ]
    /\ nth_error args 4 = Some (JStr "--mode")
    /\ nth_error args 5
       = Some (with_default (JStr "auto") (field a "analysis_mode")).
Proof.
  intros Hc. unfold analyzeContentQuality.
  destruct a; try discriminate Hc;
    (destruct (field _ "collection_name") as [name |]; [| discriminate Hc];
     rewrite Hc; eexists; split;
     [ destruct (runPythonScript h _);
       [reflexivity | | reflexivity];
       destruct (to_string name); [destruct (to_string _) |]; reflexivity
     | apply quality_pythonArgs_mode ]).
Qed.

(** C6 (counterexample).  The selector is not case-insensitive: the
    schema's enum does not admit [AUTO], and the handler hands [AUTO] to
    the analyzer as it is, not the mode [auto], and reports the mode as
    [AUTO] in its response. *)
Lemma analysis_mode_is_case_sensitive :
  enum_ok (schema_enum "analyze_content_quality" "analysis_mode") (JStr "AUTO")
  = false
  /\ conforms_to "analyze_content_quality"
       (JObj [ ("collection_name", JStr "docs"); ("analysis_mode", JStr "AUTO") ])
     = false
  /\ spawned (analyzeContentQuality sample_host
                (Some (JObj [ ("collection_name", JStr "docs");
                              ("analysis_mode", JStr "AUTO") ])))
     = [ [ JStr "/srv/mcp/tools/content-quality-analyzer.py"; JStr "docs";
           JStr "--chroma-dir"; JStr default_chroma_directory;
           JStr "--mode"; JStr "AUTO" ] ]
  /\ spawned (analyzeContentQuality sample_host
                (Some (JObj [ ("collection_name", JStr "docs");
                              ("analysis_mode", JStr "AUTO") ])))
     <> spawned (analyzeContentQuality sample_host
                   (Some (JObj [ ("collection_name", JStr "docs");
                                 ("analysis_mode", JStr "auto") ])))
  /\ result (analyzeContentQuality sample_host
               (Some (JObj [ ("collection_name", JStr "docs");
                             ("analysis_mode", JStr "AUTO") ])))
     <> result (analyzeContentQuality sample_host
                  (Some (JObj [ ("collection_name", JStr "docs");
                                ("analysis_mode", JStr "auto") ]))).
Proof. repeat split; [reflexivity .. | discriminate | discriminate]. Qed.

(** C6 (amended).  The schema of the mode selector admits exactly the
    four words auto, individual, website and competitive, compared as
    written (case-sensitively), and declares the default auto; the
    handler passes the selector to the analyzer verbatim and uses auto
    when the caller omits it. *)
Theorem analysis_mode_selector (h : Host) (a : json) :
  schema_enum "analyze_content_quality" "analysis_mode" = Some selector_words
  /\ schema_default "analyze_content_quality" "analysis_mode" = Some (JStr "auto")
  /\ (forall v,
         enum_ok (schema_enum "analyze_content_quality" "analysis_mode") v = true
         <-> exists s, v = JStr s /\ In s selector_words)
  /\ (truthy (field a "collection_name") = true ->
      exists args,
        spawned (analyzeContentQuality h (Some a)) = [ args ]
        /\ nth_error args 4 = Some (JStr "--mode")
        /\ nth_error args 5
           = Some (with_default (JStr "auto") (field a "analysis_mode"))
        /\ (field a "analysis_mode" = None ->
            nth_error args 5 = Some (JStr "auto"))).
Proof.
  split; [reflexivity |]. split; [reflexivity |]. split.
  - intros v. change (schema_enum "analyze_content_quality" "analysis_mode")
      with (Some selector_words). unfold enum_ok. split.
    + destruct v; try discriminate. intros H. eexists. split; [reflexivity |].
      now apply existsb_eqb_In.
    + intros (s & -> & Hs). now apply existsb_eqb_In.
  - intros Hc. destruct (analyzeContentQuality_spawned h a Hc) as (args & H1 & H2 & H3).
    exists args. repeat split; try assumption.
    intros Hnone. now rewrite H3, Hnone.
Qed.

Lemma analysis_mode_selector_witness :
  exists args,
    spawned (analyzeContentQuality sample_host
               (Some (JObj [ ("collection_name", JStr "docs") ]))) = [ args ]
    /\ nth_error args 4 = Some (JStr "--mode")
    /\ nth_error args 5 = Some (JStr "auto").
Proof.
  destruct (proj2 (proj2 (proj2 (analysis_mode_selector sample_host
              (JObj [ ("collection_name", JStr "docs") ])))) eq_refl)
    as (args & H1 & H2 & H3 & H4).
  exists args. repeat split; [exact H1 | exact H2 | exact (H4 eq_refl)].
Defined.

(** A request that conforms to the schema of [analyze_text_direct] has no
    [analysis_mode] or the string [individual]. *)
Lemma conforms_direct_mode (a : json) :
  conforms_to "analyze_text_direct" a = true ->
  field a "analysis_mode" = None
  \/ field a "analysis_mode" = Some (JStr "individual").
Proof.
  unfold conforms_to, find_tool, tools. simpl List.find. unfold conforms.
  destruct a; try discriminate. cbn [t_properties t_required forallb].
  rewrite !andb_true_iff. intros [(_ & _ & Hp & _) _].
  unfold property_ok in Hp. cbn [p_name p_type p_enum p_properties forallb] in Hp.
  destruct (field (JObj props) "analysis_mode") as [v |]; [| now left].
  right. rewrite !andb_true_iff in Hp. destruct Hp as [[Hty Hen] _].
  destruct v; try discriminate Hen. unfold enum_ok in Hen.
  apply existsb_eqb_In in Hen. destruct Hen as [<- | []]. reflexivity.
Qed.

(** C9 (counterexample).  Direct text analysis can be dispatched in
    website mode: the handler does not check [analysis_mode] against the
    enum and starts the analyzer with the value it was given. *)
Lemma analyzeTextDirect_dispatches_website :
  spawned (analyzeTextDirect sample_host
             (Some (JObj [ ("text", JStr "hello");
                           ("analysis_mode", JStr "website") ])))
  = [ [ JStr "/srv/mcp/tools/content-quality-analyzer-direct.py";
        JStr "/tmp/ta_analysis_1700000000000.txt";
        JStr "--mode"; JStr "website" ] ].
Proof. reflexivity. Qed.

(** C9 (amended).  The input schema of [analyze_text_direct] lists
    exactly the value individual for [analysis_mode] and declares it as
    default; the handler uses individual when the field is omitted.  For
    every request that conforms to the schema, or omits the field, each
    analyzer the handler starts is given [--mode individual]; for any
    other request the handler forwards the mode it was given. *)
Theorem analyzeTextDirect_mode (h : Host) (a : json) (args : list json) :
  schema_enum "analyze_text_direct" "analysis_mode" = Some [ "individual" ]
  /\ schema_default "analyze_text_direct" "analysis_mode" = Some (JStr "individual")
  /\ (In args (spawned (analyzeTextDirect h (Some a))) ->
      nth_error args 2 = Some (JStr "--mode")
      /\ nth_error args 3
         = Some (with_default (JStr "individual") (field a "analysis_mode")))
  /\ (field a "analysis_mode" = None \/ conforms_to "analyze_text_direct" a = true ->
      In args (spawned (analyzeTextDirect h (Some a))) ->
      nth_error args 2 = Some (JStr "--mode")
      /\ nth_error args 3 = Some (JStr "individual")).
Proof.
  assert (Hfwd : In args (spawned (analyzeTextDirect h (Some a))) ->
                 nth_error args 2 = Some (JStr "--mode")
                 /\ nth_error args 3
                    = Some (with_default (JStr "individual") (field a "analysis_mode"))).
  { destruct (analyzeTextDirect_spawned h a) as [-> | ->]; [intros [] |].
    intros [<- | []]. apply direct_pythonArgs_mode. }
  split; [reflexivity |]. split; [reflexivity |]. split; [exact Hfwd |].
  intros Hok Hin. destruct (Hfwd Hin) as [H2 H3]. split; [exact H2 |].
  rewrite H3.
  destruct Hok as [-> | Hc]; [reflexivity |].
  destruct (conforms_direct_mode a Hc) as [-> | ->]; reflexivity.
Qed.

Lemma analyzeTextDirect_mode_witness :
  conforms_to "analyze_text_direct"
    (JObj [ ("text", JStr "hello"); ("analysis_mode", JStr "individual") ]) = true
  /\ spawned (analyzeTextDirect sample_host
                (Some (JObj [ ("text", JStr "hello");
                              ("analysis_mode", JStr "individual") ])))
     = [ direct_pythonArgs sample_host (JObj []) (JStr "individual") ]
  /\ nth_error (direct_pythonArgs sample_host (JObj []) (JStr "individual")) 3
     = Some (JStr "individual").
Proof.
  split; [reflexivity |]. split; [reflexivity |].
  apply (proj2 (proj2 (proj2 (analyzeTextDirect_mode sample_host
           (JObj [ ("text", JStr "hello"); ("analysis_mode", JStr "individual") ])
           (direct_pythonArgs sample_host (JObj []) (JStr "individual")))))).
  - right. reflexivity.
  - left. reflexivity.
Defined.

(** ** The clock and the report *)

(** The temp file is named after the clock, so two calls on the same text
    start the analyzer on different argument vectors. *)
Lemma tempFile_follows_clock :
  tempFile sample_host = "/tmp/ta_analysis_1700000000000.txt"
  /\ tempFile {| dirname := dirname sample_host;
                 path_join := path_join sample_host;
                 tmpdir := tmpdir sample_host;
                 now := 1700000000001%Z;
                 env_python_path := env_python_path sample_host;
                 json_stringify := json_stringify sample_host;
                 write_file := write_file sample_host;
                 child := child sample_host |}
     = "/tmp/ta_analysis_1700000000001.txt".
Proof. split; reflexivity. Qed.

(** The response of [analyzeTextDirect] is made of the analyzer's outcome
    alone: two calls on the same arguments whose analyzers settle alike
    end alike, whatever the clock and the temp directory. *)
Lemma analyzeTextDirect_result_of_promise (h1 h2 : Host) (a : json) :
  truthy (field a "text") = true ->
  (forall t, write_file h1 (tempFile h1) t = None) ->
  (forall t, write_file h2 (tempFile h2) t = None) ->
  runPythonScript h1
    (direct_pythonArgs h1 (with_default (JObj []) (field a "metadata"))
       (with_default (JStr "individual") (field a "analysis_mode")))
  = runPythonScript h2
      (direct_pythonArgs h2 (with_default (JObj []) (field a "metadata"))
         (with_default (JStr "individual") (field a "analysis_mode"))) ->
  result (analyzeTextDirect h1 (Some a)) = result (analyzeTextDirect h2 (Some a)).
Proof.
  intros Ht Hw1 Hw2 Hrun. unfold analyzeTextDirect.
  destruct a; try discriminate Ht;
    (destruct (field _ "text") as [t |]; [| discriminate Ht];
     rewrite Ht, Hw1, Hw2, Hrun;
     destruct (runPythonScript h2 _); reflexivity).
Qed.

End ServerFacts.

(** * Properties of the engine model *)

Section EngineFacts.
Import Engine.

(** ** ModeDetector *)

Lemma elem_of_distinct_domains (c : list Document) (s : string) :
  s ∈ distinct_domains c <-> exists d, In d c /\ site_domain_of d = Some s.
Proof.
  unfold distinct_domains. rewrite elem_of_list_to_set, list_elem_of_omap.
  split; intros (d & Hd & Hs); exists d; (split; [| exact Hs]);
    now apply list_elem_of_In.
Qed.

(** A finite set has more than one element exactly when it holds two
    different ones. *)
Lemma size_gt_1_iff (X : gset string) :
  (1 < size X)%nat <-> exists x y, x ∈ X /\ y ∈ X /\ x <> y.
Proof.
  split.
  - intros Hsize.
    destruct (size_pos_elem_of X) as [x Hx]; [lia |].
    assert (Hrest : (0 < size (X ∖ {[ x ]}))%nat).
    { rewrite size_difference by now apply singleton_subseteq_l.
      rewrite size_singleton. lia. }
    destruct (size_pos_elem_of _ Hrest) as [y Hy].
    apply elem_of_difference in Hy as [Hy Hn]. rewrite elem_of_singleton in Hn.
    exists x, y. auto.
  - intros (x & y & Hx & Hy & Hne).
    assert (Hsub : ({[ x ]} ∪ {[ y ]} : gset string) ⊆ X).
    { intros z [Hz | Hz]%elem_of_union; apply elem_of_singleton in Hz;
        now subst. }
    apply subseteq_size in Hsub.
    rewrite size_union in Hsub
      by (apply disjoint_singleton_l; now rewrite elem_of_singleton).
    rewrite !size_singleton in Hsub. lia.
Qed.

Lemma multi_domain_iff (c : list Document) :
  multi_domain c <-> (1 < size (distinct_domains c))%nat.
Proof.
  rewrite size_gt_1_iff. unfold multi_domain. split.
  - intros (d1 & d2 & s1 & s2 & H1 & H2 & E1 & E2 & Hne).
    exists s1, s2. rewrite !elem_of_distinct_domains. eauto 10.
  - intros (s1 & s2 & H1 & H2 & Hne).
    apply elem_of_distinct_domains in H1 as (d1 & H1 & E1).
    apply elem_of_distinct_domains in H2 as (d2 & H2 & E2).
    exists d1, d2, s1, s2. auto 10.
Qed.

Lemma carries_hierarchy_iff (d : Document) :
  carries_hierarchy d = true
  <-> is_Some (doc_metadata d !! "hierarchy")
      \/ is_Some (doc_metadata d !! "section_order")
      \/ is_Some (doc_metadata d !! "content_type").
Proof.
  unfold carries_hierarchy, hierarchy_keys. cbn [existsb].
  rewrite !orb_true_iff, !bool_decide_eq_true. intuition discriminate.
Qed.

Lemma hierarchical_iff (c : list Document) :
  hierarchical c <-> existsb carries_hierarchy c = true.
Proof.
  rewrite existsb_exists. unfold hierarchical.
  split; intros (d & Hd & H); exists d; (split; [exact Hd |]);
    now apply carries_hierarchy_iff.
Qed.

(** C2.  [detect] applies its decision table in order: a collection whose
    documents declare more than one distinct [site_domain] is
    competitive; otherwise a collection in which some document carries
    [hierarchy], [section_order] or [content_type] is website; otherwise
    it is individual. *)
Theorem detect_decision_order (c : list Document) :
  (multi_domain c -> detect c = Competitive)
  /\ (~ multi_domain c -> hierarchical c -> detect c = Website)
  /\ (~ multi_domain c -> ~ hierarchical c -> detect c = Individual).
Proof.
  unfold detect. rewrite multi_domain_iff, hierarchical_iff.
  destruct (decide (1 < size (distinct_domains c))%nat) as [Hm | Hm];
    destruct (existsb carries_hierarchy c);
    repeat split; intros; congruence || contradiction.
Qed.

Lemma detect_decision_order_witness :
  detect [ doc_a_home; doc_a_about; doc_b_home ] = Competitive
  /\ detect [ doc_a_home; doc_a_about ] = Website
  /\ detect [ doc_contact; doc_guide ] = Individual.
Proof.
  split; [| split].
  - apply (proj1 (detect_decision_order _)).
    exists doc_a_home, doc_b_home, "a.com", "b.com".
    repeat split; [simpl; tauto | simpl; tauto | discriminate].
  - apply (proj1 (proj2 (detect_decision_order _))).
    + rewrite multi_domain_iff. vm_compute. lia.
    + exists doc_a_home. split; [simpl; tauto |]. left. vm_compute. eauto.
  - apply (proj2 (proj2 (detect_decision_order _))).
    + rewrite multi_domain_iff. vm_compute. lia.
    + rewrite hierarchical_iff. vm_compute. discriminate.
Defined.

(** ** DocumentScorer: range of the scores *)

Lemma of_nat_nonneg (n : nat) : (0 <= of_nat n)%Q.
Proof.
  unfold of_nat. change 0%Q with (inject_Z 0). rewrite <- Zle_Qle. lia.
Qed.

Lemma of_nat_le (n m : nat) : (n <= m)%nat -> (of_nat n <= of_nat m)%Q.
Proof. intros H. unfold of_nat. rewrite <- Zle_Qle. lia. Qed.

Lemma of_nat_pos (n : nat) : (0 < n)%nat -> (0 < of_nat n)%Q.
Proof.
  intros H. unfold of_nat. change 0%Q with (inject_Z 0). rewrite <- Zlt_Qlt. lia.
Qed.

Lemma of_nat_S (n : nat) : (of_nat (S n) == of_nat n + 1)%Q.
Proof.
  unfold of_nat. rewrite Nat2Z.inj_succ, <- Z.add_1_r, inject_Z_plus. reflexivity.
Qed.

Lemma in_unit_0 : in_unit 0.
Proof. unfold in_unit. lra. Qed.

Lemma in_unit_1 : in_unit 1.
Proof. unfold in_unit. lra. Qed.

Lemma clamp01_unit (q : Q) : in_unit (clamp01 q).
Proof.
  unfold in_unit, clamp01. split.
  - apply Q.le_max_l.
  - apply Q.max_lub; [lra | apply Q.le_min_l].
Qed.

(** A ratio of a part to a positive whole. *)
Lemma ratio_unit (a b : Q) :
  (0 <= a)%Q -> (a <= b)%Q -> (0 < b)%Q -> in_unit (a / b).
Proof.
  intros Ha Hab Hb. split.
  - apply Qle_shift_div_l; [exact Hb | lra].
  - apply Qle_shift_div_r; [exact Hb | lra].
Qed.

Lemma product_unit (a b : Q) : in_unit a -> in_unit b -> in_unit (a * b).
Proof. unfold in_unit. intros [? ?] [? ?]. split; nra. Qed.

Lemma filter_length_bound {A : Type} (f : A -> bool) (l : list A) :
  (List.length (List.filter f l) <= List.length l)%nat.
Proof. induction l as [| x l IH]; simpl; [lia | destruct (f x); simpl; lia]. Qed.

Lemma distinct_length_bound (cs : list ascii) :
  (List.length (distinct cs) <= List.length cs)%nat.
Proof.
  induction cs as [| c cs IH]; simpl; [lia |].
  destruct (existsb (Ascii.eqb c) cs); simpl; lia.
Qed.

Lemma Qsum_bounds (l : list Q) :
  (forall x, In x l -> in_unit x) ->
  (0 <= Qsum l /\ Qsum l <= of_nat (List.length l))%Q.
Proof.
  induction l as [| x l IH]; intros H.
  - change (0 <= 0 /\ 0 <= 0)%Q. split; apply Qle_refl.
  - destruct IH as [IH0 IH1]; [intros y Hy; apply H; now right |].
    destruct (H x (or_introl eq_refl)) as [Hx0 Hx1].
    cbn [Qsum fold_right List.length]. fold (Qsum l).
    rewrite of_nat_S. lra.
Qed.

Lemma mean_unit (l : list Q) :
  (forall x, In x l -> in_unit x) -> in_unit (mean l).
Proof.
  intros H. destruct l as [| x l]; [apply in_unit_0 |].
  unfold mean. destruct (Qsum_bounds _ H) as [H0 H1].
  apply ratio_unit; [exact H0 | exact H1 | apply of_nat_pos; simpl; lia].
Qed.

Lemma word_precision_unit (cfg : Config) (text : string) :
  in_unit (score_word_precision cfg text).
Proof.
  unfold score_word_precision.
  destruct (tokenize text); [apply in_unit_0 | apply clamp01_unit].
Qed.

Lemma modal_certainty_unit (cfg : Config) (text : string) :
  (0 < epsilon cfg)%Q -> in_unit (score_modal_certainty cfg text).
Proof.
  intros He. unfold score_modal_certainty.
  destruct (certainty_count cfg text + hedge_count cfg text)%nat.
  - unfold in_unit. lra.
  - pose proof (of_nat_nonneg (certainty_count cfg text)).
    pose proof (of_nat_nonneg (hedge_count cfg text)).
    apply ratio_unit; lra.
Qed.

Lemma structure_efficiency_unit (cfg : Config) (text : string) :
  valid_config cfg -> in_unit (score_structure_efficiency cfg text).
Proof.
  intros V. unfold score_structure_efficiency.
  pose proof (structure_weights_convex cfg V) as Hw.
  destruct (structure_weights cfg) as [[a b] c]. destruct Hw as (Ha & Hb & Hc & Hs).
  destruct (variance_unit cfg V text), (boundary_unit cfg V text),
    (transition_unit cfg V text).
  unfold in_unit. split; nra.
Qed.

Lemma punctuation_impact_unit (cfg : Config) (text : string) :
  valid_config cfg -> in_unit (score_punctuation_impact cfg text).
Proof.
  intros V. unfold score_punctuation_impact.
  destruct (punctuation_marks text) as [| m marks] eqn:E; [apply in_unit_0 |].
  apply product_unit; [| apply (penalty_unit cfg V)].
  assert (Hlen : (List.length (m :: marks) <= List.length (chars text))%nat).
  { rewrite <- E. apply filter_length_bound. }
  pose proof (distinct_length_bound (m :: marks)) as Hd.
  apply ratio_unit.
  - apply of_nat_nonneg.
  - apply of_nat_le. lia.
  - apply of_nat_pos. simpl in Hlen. lia.
Qed.

Lemma semantic_consistency_unit (cfg : Config) (text : string) :
  valid_config cfg -> in_unit (score_semantic_consistency cfg text).
Proof.
  intros V. unfold score_semantic_consistency.
  destruct (pairs (segments text)) as [| p ps]; [apply in_unit_1 |].
  apply mean_unit. intros x Hx. apply in_map_iff in Hx as (q & <- & _).
  apply (similarity_unit cfg V).
Qed.

(** The weighted mean of five scores in [0,1] is in [0,1]. *)
Lemma overall_unit (w : Weights) (wp mc se pi sc : Q) :
  (0 <= w_word_precision w /\ 0 <= w_modal_certainty w
   /\ 0 <= w_structure_efficiency w /\ 0 <= w_punctuation_impact w
   /\ 0 <= w_semantic_consistency w)%Q ->
  (0 < weight_total w)%Q ->
  in_unit wp -> in_unit mc -> in_unit se -> in_unit pi -> in_unit sc ->
  in_unit (overall_of w wp mc se pi sc).
Proof.
  intros (H1 & H2 & H3 & H4 & H5) Ht [? ?] [? ?] [? ?] [? ?] [? ?].
  unfold overall_of. unfold weight_total in *.
  apply ratio_unit; [nra | nra | exact Ht].
Qed.

(** C1.  For a valid configuration and every document, each of the five
    dimension scores and the overall score lies in [0,1], and the overall
    score is the weighted mean of the five dimension scores, a total
    function of them. *)
Theorem score_in_unit_interval (cfg : Config) (d : Document) :
  valid_config cfg ->
  in_unit (word_precision (score cfg d))
  /\ in_unit (modal_certainty (score cfg d))
  /\ in_unit (structure_efficiency (score cfg d))
  /\ in_unit (punctuation_impact (score cfg d))
  /\ in_unit (semantic_consistency (score cfg d))
  /\ in_unit (overall (score cfg d))
  /\ (overall (score cfg d)
      == overall_of (weights cfg)
           (word_precision (score cfg d)) (modal_certainty (score cfg d))
           (structure_efficiency (score cfg d)) (punctuation_impact (score cfg d))
           (semantic_consistency (score cfg d)))%Q.
Proof.
  intros V. unfold score.
  destruct (doc_text d) as [| c r] eqn:E.
  - cbn [word_precision modal_certainty structure_efficiency punctuation_impact
           semantic_consistency overall zero_vector].
    repeat (split; [apply in_unit_0 |]).
    unfold overall_of, Qdiv. ring.
  - cbn [word_precision modal_certainty structure_efficiency punctuation_impact
           semantic_consistency overall].
    pose proof (word_precision_unit cfg (String c r)).
    pose proof (modal_certainty_unit cfg (String c r) (epsilon_pos cfg V)).
    pose proof (structure_efficiency_unit cfg (String c r) V).
    pose proof (punctuation_impact_unit cfg (String c r) V).
    pose proof (semantic_consistency_unit cfg (String c r) V).
    repeat (split; [assumption |]).
    split; [| reflexivity].
    apply overall_unit; try assumption.
    + apply (weights_nonneg cfg V).
    + apply (weights_total_pos cfg V).
Qed.

Lemma sample_config_valid : valid_config sample_config.
Proof.
  constructor; cbn [sample_config epsilon variance_score boundary_score
    transition_score structure_weights exclamation_penalty similarity weights
    default_weights w_word_precision w_modal_certainty w_structure_efficiency
    w_punctuation_impact w_semantic_consistency].
  - reflexivity.
  - intros _. unfold in_unit. lra.
  - intros t. unfold sample_boundary.
    destruct (existsb _ _); [apply in_unit_1 | apply in_unit_0].
  - intros t. unfold sample_transition.
    destruct (tokenize t); [apply in_unit_0 | apply clamp01_unit].
  - repeat split; lra.
  - intros d. unfold sample_penalty.
    destruct (Qle_bool d (1 # 20)) eqn:E; [apply in_unit_1 |].
    assert (Hd : ((1 # 20) < d)%Q).
    { apply Qnot_le_lt. intros H. apply Qle_bool_iff in H. congruence. }
    apply ratio_unit; lra.
  - intros a b. unfold sample_similarity.
    destruct a as [| x a]; [apply in_unit_0 |].
    apply ratio_unit.
    + apply of_nat_nonneg.
    + apply of_nat_le, filter_length_bound.
    + apply of_nat_pos. simpl. lia.
  - repeat split; lra.
  - reflexivity.
Qed.

Lemma score_in_unit_interval_witness :
  in_unit (word_precision (score sample_config doc_guide))
  /\ in_unit (modal_certainty (score sample_config doc_guide))
  /\ in_unit (structure_efficiency (score sample_config doc_guide))
  /\ in_unit (punctuation_impact (score sample_config doc_guide))
  /\ in_unit (semantic_consistency (score sample_config doc_guide))
  /\ in_unit (overall (score sample_config doc_guide))
  /\ (overall (score sample_config doc_guide)
      == overall_of (weights sample_config)
           (word_precision (score sample_config doc_guide))
           (modal_certainty (score sample_config doc_guide))
           (structure_efficiency (score sample_config doc_guide))
           (punctuation_impact (score sample_config doc_guide))
           (semantic_consistency (score sample_config doc_guide)))%Q.
Proof.
  exact (score_in_unit_interval sample_config doc_guide sample_config_valid).
Defined.

(** With the default weights the overall score is the plain average. *)
Lemma overall_default_is_average (wp mc se pi sc : Q) :
  (overall_of default_weights wp mc se pi sc == (wp + mc + se + pi + sc) / 5)%Q.
Proof.
  unfold overall_of, weight_total, default_weights; cbn. field.
Qed.

(** The empty text scores zero in every field. *)
Lemma score_empty_text (cfg : Config) (d : Document) :
  doc_text d = EmptyString -> score cfg d = zero_vector.
Proof. intros E. unfold score. now rewrite E. Qed.

(** ** Modal certainty *)






(** ** AggregationReporter *)


(** ** Determinism of the pipeline *)









End EngineFacts.

(** * Further properties of the server *)

Section ServerCoverage.
Import JS Server.

(** ** The promise of [runPythonScript] *)

(** Once the promise has settled, no later event of the child changes it:
    a [close] after an [error], a second [close], late data. *)
Theorem promise_settles_once (evs more : list proc_event) :
  settled (run_events evs) <> Pending ->
  settled (run_events (evs ++ more)%list) = settled (run_events evs).
Proof.
  intros H. unfold run_events. rewrite fold_left_app.
  now apply run_settled.
Qed.

Lemma promise_settles_once_witness :
  settled (run_events
             ([ ProcError "spawn python3 ENOENT" ] ++ [ Close (Some 0%Z) ])%list)
  = settled (run_events [ ProcError "spawn python3 ENOENT" ]).
Proof. apply promise_settles_once. discriminate. Defined.

(** The promise stays pending exactly on children that emit data only:
    without a [close] or an [error] event the caller waits for ever. *)
Theorem promise_pending_iff (evs : list proc_event) :
  settled (run_events evs) = Pending <-> forallb is_data evs = true.
Proof.
  destruct (events_split evs)
    as [[ds ->] | (ds & e & rest & -> & [[code ->] | [m ->]])].
  - split; intros _; [| apply run_data_pending].
    induction ds as [| [c | c] ds IH]; simpl; auto.
  - split.
    + destruct (decide (code = Some 0%Z)) as [-> | Hne].
      * now rewrite run_close_zero.
      * now rewrite (run_close_nonzero _ _ _ Hne).
    + rewrite forallb_app. simpl. rewrite andb_false_r. discriminate.
  - split.
    + now rewrite run_error.
    + rewrite forallb_app. simpl. rewrite andb_false_r. discriminate.
Qed.

(** ** [analyzeTextDirect] *)

(** The temp file never outlives a settled call.  A call rejected by the
    guard touches nothing; a failed write is followed by the removal; a
    call that started the analyzer removes the file when the analyzer
    settled, whether it returns or throws.  Only a call whose analyzer
    never settles leaves the file, and never returns. *)
Theorem analyzeTextDirect_cleanup (h : Host) (args : option json) :
  (effects (analyzeTextDirect h args) = []
   /\ exists e, result (analyzeTextDirect h args) = Throws e)
  \/ (exists t,
        effects (analyzeTextDirect h args)
        = [ WriteFile (tempFile h) t; Unlink (tempFile h) ]
        /\ exists e, result (analyzeTextDirect h args) = Throws e)
  \/ (exists t pythonArgs,
        effects (analyzeTextDirect h args)
        = [ WriteFile (tempFile h) t; Spawn (pythonPath h) pythonArgs;
            Unlink (tempFile h) ]
        /\ runPythonScript h pythonArgs <> Pending
        /\ result (analyzeTextDirect h args) <> Hangs)
  \/ (exists t pythonArgs,
        effects (analyzeTextDirect h args)
        = [ WriteFile (tempFile h) t; Spawn (pythonPath h) pythonArgs ]
        /\ runPythonScript h pythonArgs = Pending
        /\ result (analyzeTextDirect h args) = Hangs).
Proof.
  unfold analyzeTextDirect.
  destruct args as [a |]; [| left; eauto].
  destruct a; try (left; simpl; eauto; fail);
    (destruct (field _ "text") as [t |]; [| left; eauto];
     destruct (truthy (Some t)); [| left; eauto];
     destruct (write_file h (tempFile h) t); [right; left; eauto |];
     right; right;
     match goal with
     | |- context [runPythonScript h ?pa] =>
         destruct (runPythonScript h pa) eqn:E;
         [ right; exists t, pa; split; [reflexivity | split; [exact E | reflexivity]]
         | left; exists t, pa;
           split; [reflexivity | split; [rewrite E |]; discriminate]
         | left; exists t, pa;
           split; [reflexivity | split; [rewrite E |]; discriminate] ]
     end).
Qed.

(** Metadata reaches the analyzer only when there is some: an omitted or
    empty metadata object adds nothing to the four arguments, a non-empty
    one adds [--metadata] and its JSON text. *)
Theorem analyzeTextDirect_metadata (h : Host) (a : json) (args : list json) :
  In args (spawned (analyzeTextDirect h (Some a))) ->
  let base :=
    [ JStr (direct_script h); JStr (tempFile h); JStr "--mode";
      with_default (JStr "individual") (field a "analysis_mode") ] in
  (field a "metadata" = None \/ field a "metadata" = Some (JObj []) ->
   args = base)
  /\ (forall p ps,
         field a "metadata" = Some (JObj (p :: ps)) ->
         args = (base ++ [ JStr "--metadata";
                           JStr (json_stringify h (JObj (p :: ps))) ])%list).
Proof.
  intros Hin base.
  destruct (analyzeTextDirect_spawned h a) as [E | E]; rewrite E in Hin;
    [destruct Hin |].
  destruct Hin as [<- | []]. split.
  - intros [-> | ->]; reflexivity.
  - intros p ps ->. reflexivity.
Qed.

Lemma analyzeTextDirect_metadata_witness :
  [ JStr "/srv/mcp/tools/content-quality-analyzer-direct.py";
    JStr "/tmp/ta_analysis_1700000000000.txt"; JStr "--mode"; JStr "individual";
    JStr "--metadata"; JStr ("{" ++ dq ++ "source" ++ dq ++ ":" ++ dq ++ "blog" ++ dq ++ "}") ]
  = ([ JStr (direct_script sample_host); JStr (tempFile sample_host);
       JStr "--mode"; JStr "individual" ]
     ++ [ JStr "--metadata";
          JStr (json_stringify sample_host (JObj [ ("source", JStr "blog") ])) ])%list.
Proof.
  apply (proj2 (analyzeTextDirect_metadata sample_host
                  (JObj [ ("text", JStr "hello");
                          ("metadata", JObj [ ("source", JStr "blog") ]) ])
                  _ (or_introl eq_refl))).
  reflexivity.
Defined.

(** An analyzer that exits with a code other than 0 makes the call throw
    an error that names the code and carries the analyzer's stderr, or
    [None] when it wrote none; what it wrote to stdout is dropped, and
    the temp file is removed. *)
Theorem analyzeTextDirect_exit_code (h : Host) (a t : json)
    (ds : list data_chunk) (code : option Z) (rest : list proc_event) :
  field a "text" = Some t ->
  truthy (Some t) = true ->
  write_file h (tempFile h) t = None ->
  code <> Some 0%Z ->
  let pythonArgs :=
    direct_pythonArgs h (with_default (JObj []) (field a "metadata"))
      (with_default (JStr "individual") (field a "analysis_mode")) in
  child h (pythonPath h) pythonArgs
  = (List.map data_event ds ++ Close code :: rest)%list ->
  analyzeTextDirect h (Some a)
  = {| effects := [ WriteFile (tempFile h) t; Spawn (pythonPath h) pythonArgs;
                    Unlink (tempFile h) ];
       result :=
         Throws (Err ("Direct analysis failed: Python script exited with code "
                      ++ code_text code ++ nl ++ nl ++ "Stderr: "
                      ++ stderr_or_none (stderr_of ds))) |}.
Proof.
  intros Ht Htruthy Hw Hc pythonArgs Hev.
  assert (Hrun : runPythonScript h pythonArgs
                 = Rejected ("Python script exited with code " ++ code_text code)
                     (stdout_of ds) (stderr_of ds)).
  { unfold runPythonScript. rewrite Hev. now apply run_close_nonzero. }
  subst pythonArgs. unfold analyzeTextDirect.
  destruct a; try discriminate Ht.
  rewrite Ht, Htruthy, Hw. cbv zeta. rewrite Hrun. cbn.
  now rewrite append_assoc.
Qed.

Lemma analyzeTextDirect_exit_code_witness :
  analyzeTextDirect strict_host
    (Some (JObj [ ("text", JStr "hello"); ("analysis_mode", JStr "website") ]))
  = {| effects :=
         [ WriteFile (tempFile strict_host) (JStr "hello");
           Spawn "python3"
             (direct_pythonArgs strict_host (JObj []) (JStr "website"));
           Unlink (tempFile strict_host) ];
       result :=
         Throws (Err ("Direct analysis failed: Python script exited with code "
                      ++ "2" ++ nl ++ nl ++ "Stderr: " ++ "error: invalid mode")) |}.
Proof.
  apply (analyzeTextDirect_exit_code strict_host
           (JObj [ ("text", JStr "hello"); ("analysis_mode", JStr "website") ])
           (JStr "hello") [ OutChunk "usage"; ErrChunk "error: invalid mode" ]
           (Some 2%Z) []);
    [reflexivity | reflexivity | reflexivity | discriminate | reflexivity].
Defined.

(** ** [analyzeContentQuality] *)



(** [--verbose] is passed exactly when [verbose] is truthy, as a seventh
    argument; any truthy value turns it on, not only [true]. *)
Theorem analyzeContentQuality_verbose (h : Host) (a : json) (args : list json) :
  In args (spawned (analyzeContentQuality h (Some a))) ->
  (truthy (field a "verbose") = true ->
   List.length args = 7%nat /\ nth_error args 6 = Some (JStr "--verbose"))
  /\ (truthy (field a "verbose") = false -> List.length args = 6%nat).
Proof.
  intros Hin.
  assert (Hargs : exists dir name mode,
             args = quality_pythonArgs h dir name mode
                      (Some (with_default (JBool false) (field a "verbose")))).
  { revert Hin. unfold analyzeContentQuality.
    destruct a; try (intros []);
      (destruct (field _ "collection_name") as [name |]; [| intros []];
       destruct (truthy (Some name)); [| intros []]; cbv zeta;
       destruct (runPythonScript h _);
       [ | destruct (to_string name); [destruct (to_string _) |] | ];
       cbn; intros [<- | []]; eauto). }
  destruct Hargs as (dir & name & mode & ->).
  unfold quality_pythonArgs.
  destruct (field a "verbose") as [v |]; cbn [with_default].
  - split; intros Hv; rewrite Hv; [split |]; reflexivity.
  - split; intros Hv; [discriminate Hv | reflexivity].
Qed.

Lemma analyzeContentQuality_verbose_witness :
  List.length
    (quality_pythonArgs sample_host (JStr default_chroma_directory) (JStr "docs")
       (JStr "auto") (Some (JStr "false"))) = 7%nat
  /\ nth_error
       (quality_pythonArgs sample_host (JStr default_chroma_directory) (JStr "docs")
          (JStr "auto") (Some (JStr "false"))) 6
     = Some (JStr "--verbose").
Proof.
  apply (proj1 (analyzeContentQuality_verbose sample_host
                  (JObj [ ("collection_name", JStr "docs"); ("verbose", JStr "false") ])
                  _ (or_introl eq_refl))).
  reflexivity.
Defined.



(** ** [listChromaCollections] *)



(** ** [getAnalysisHelp] on string topics *)

(** For a topic given as a string the help handler returns: the text of
    that topic when it is one of modes, setup, metadata, examples; the
    inherited member when the string names one of [Object.prototype];
    the modes help for every other string. *)
Theorem getAnalysisHelp_string_topic (a : json) (topic : string) :
  field a "topic" = Some (JStr topic) ->
  getAnalysisHelp (Some a)
  = Returns (text_response
      (match assoc topic helpContent with
       | Some text => VStr text
       | None =>
           if existsb (String.eqb topic) object_prototype_keys
           then VInherited topic
           else VStr help_modes
       end)).
Proof.
  intros Ht. unfold getAnalysisHelp.
  destruct a; try discriminate Ht.
  rewrite Ht. cbn [with_default to_string]. unfold get_property.
  destruct (assoc topic helpContent) as [text |] eqn:E.
  - unfold or_else. now rewrite (helpContent_truthy _ _ E).
  - destruct (existsb (String.eqb topic) object_prototype_keys); reflexivity.
Qed.

Lemma getAnalysisHelp_string_topic_witness :
  getAnalysisHelp (Some (JObj [ ("topic", JStr "setup") ]))
  = Returns (text_response (VStr help_setup))
  /\ getAnalysisHelp (Some (JObj [ ("topic", JStr "Setup") ]))
     = Returns (text_response (VStr help_modes)).
Proof.
  split.
  - rewrite (getAnalysisHelp_string_topic
               (JObj [ ("topic", JStr "setup") ]) "setup" eq_refl). reflexivity.
  - rewrite (getAnalysisHelp_string_topic
               (JObj [ ("topic", JStr "Setup") ]) "Setup" eq_refl). reflexivity.
Defined.

(** ** The tool dispatcher *)

(** The tools the server lists are exactly the tools it dispatches: a
    name has a [case] in the dispatcher if and only if the tool list
    declares it. *)
Theorem listed_tools_are_dispatched (h : Host) (name : string) :
  is_Some (handler_for h name) <-> is_Some (find_tool name).
Proof.
  unfold handler_for, find_tool, tools. cbn [List.find t_name].
  rewrite !(String.eqb_sym name).
  repeat (destruct (String.eqb _ name); [split; eauto |]).
  split; intros [x Hx]; discriminate.
Qed.

(** Every error that leaves the dispatcher is an internal error whose
    text starts with [Tool execution failed: ]: the errors of the tools,
    and also the method-not-found error of an unknown tool name, which
    the dispatcher's own catch clause wraps; an unknown name has no
    effect. *)
Theorem callTool_errors_are_internal (k : Runtime) (h : Host) (name : string)
    (args : option json) :
  (forall e,
      tool_result (callTool k h name args) = ToolThrows e ->
      mcp_code e = InternalError
      /\ exists m, mcp_text e = "Tool execution failed: " ++ m)
  /\ (find_tool name = None ->
      callTool k h name args
      = {| tool_effects := [];
           tool_result :=
             ToolThrows
               {| mcp_code := InternalError;
                  mcp_text :=
                    "Tool execution failed: "
                    ++ mcp_message k MethodNotFound ("Unknown tool: " ++ name) |} |}).
Proof.
  split.
  - intros e. unfold callTool.
    destruct (handler_for h name) as [handler |]; cbn.
    + destruct (result (handler args)); intros [= <-]; cbn; eauto.
    + intros [= <-]. cbn. eauto.
  - intros Hnone. unfold callTool.
    destruct (handler_for h name) as [handler |] eqn:E; [| reflexivity].
    assert (Hs : is_Some (find_tool name))
      by (apply (listed_tools_are_dispatched h); eauto).
    rewrite Hnone in Hs. destruct Hs as [x Hx]. discriminate.
Qed.

Lemma callTool_errors_are_internal_witness :
  callTool sample_runtime sample_host "analyze_everything" (Some (JObj []))
  = {| tool_effects := [];
       tool_result :=
         ToolThrows
           {| mcp_code := InternalError;
              mcp_text :=
                "Tool execution failed: MCP error -32601: Unknown tool: analyze_everything" |} |}.
Proof.
  apply (proj2 (callTool_errors_are_internal sample_runtime sample_host
                  "analyze_everything" (Some (JObj [])))).
  reflexivity.
Defined.

(** A call without an arguments object fails for every tool, also for
    the two that require no argument, before anything is started: the
    destructuring of the missing object throws. *)
Theorem callTool_without_arguments (k : Runtime) (h : Host) (name : string) :
  is_Some (find_tool name) ->
  callTool k h name None
  = {| tool_effects := [];
       tool_result :=
         ToolThrows
           {| mcp_code := InternalError;
              mcp_text := "Tool execution failed: " ++ destructure_message k name |} |}.
Proof.
  intros Hs. apply (listed_tools_are_dispatched h) in Hs.
  unfold callTool. revert Hs. unfold handler_for.
  repeat (destruct (String.eqb name _); [intros _; reflexivity |]).
  intros [x Hx]. discriminate.
Qed.

Lemma callTool_without_arguments_witness :
  callTool sample_runtime sample_host "list_chroma_collections" None
  = {| tool_effects := [];
       tool_result :=
         ToolThrows
           {| mcp_code := InternalError;
              mcp_text :=
                "Tool execution failed: "
                ++ "Cannot destructure property 'chroma_directory' of 'args' as it is undefined." |} |}.
Proof.
  apply (callTool_without_arguments sample_runtime sample_host
           "list_chroma_collections").
  vm_compute. eauto.
Defined.

(** ** Schema defaults and handler defaults *)

Lemma assoc_app {A : Type} (k : string) (l1 l2 : list (string * A)) :
  assoc k (l1 ++ l2)%list
  = match assoc k l1 with
    | Some v => Some v
    | None => assoc k l2
    end.
Proof.
  induction l1 as [| [k' v] l1 IH]; [reflexivity |].
  simpl. destruct (String.eqb k' k); [reflexivity | exact IH].
Qed.

(** Filling defaults keeps what the object has and adds, for a missing
    key, the declared default. *)
Lemma fill_defaults_fold (ps : list property_schema) :
  forall props,
    exists props',
      fold_left fill_default ps (JObj props) = JObj props'
      /\ forall k,
           assoc k props'
           = match assoc k props with
             | Some v => Some v
             | None => declared_default ps k
             end.
Proof.
  induction ps as [| p ps IH]; intros props.
  - exists props. split; [reflexivity |]. intros k. now destruct (assoc k props).
  - cbn [fold_left]. unfold fill_default at 2.
    destruct (p_default p) as [d |] eqn:Ed.
    + destruct (assoc (p_name p) props) as [v |] eqn:Ep.
      * destruct (IH props) as (props' & -> & Hk). exists props'.
        split; [reflexivity |]. intros k. rewrite Hk. cbn [declared_default].
        destruct (assoc k props) eqn:Ek; [reflexivity |].
        destruct (String.eqb_spec (p_name p) k) as [<- | _]; [congruence |].
        reflexivity.
      * destruct (IH (props ++ [ (p_name p, d) ])%list) as (props' & -> & Hk).
        exists props'. split; [reflexivity |]. intros k.
        rewrite Hk, assoc_app. cbn [declared_default assoc].
        destruct (assoc k props); [reflexivity |].
        rewrite Ed. destruct (String.eqb (p_name p) k); reflexivity.
    + destruct (IH props) as (props' & -> & Hk). exists props'.
      split; [reflexivity |]. intros k. rewrite Hk. cbn [declared_default].
      rewrite Ed. now destruct (String.eqb (p_name p) k).
Qed.

Lemma fill_defaults_not_object (ps : list property_schema) (a : json) :
  (forall props, a <> JObj props) -> fold_left fill_default ps a = a.
Proof.
  intros Ha. induction ps as [| p ps IH]; [reflexivity |].
  cbn [fold_left]. replace (fill_default a p) with a; [exact IH |].
  unfold fill_default. destruct a; try reflexivity. now contradiction (Ha props).
Qed.

Lemma fill_defaults_other (tool : string) (a : json) :
  (forall props, a <> JObj props) -> fill_defaults tool a = a.
Proof.
  intros Ha. unfold fill_defaults.
  destruct (find_tool tool); [now apply fill_defaults_not_object | reflexivity].
Qed.

Lemma fill_defaults_object (tool : string) (t : tool_schema)
    (props : list (string * json)) :
  find_tool tool = Some t ->
  exists props',
    fill_defaults tool (JObj props) = JObj props'
    /\ forall k,
         assoc k props'
         = match assoc k props with
           | Some v => Some v
           | None => declared_default (t_properties t) k
           end.
Proof.
  intros Ht. unfold fill_defaults. rewrite Ht. apply fill_defaults_fold.
Qed.

(** The defaults the schemas declare are the defaults the handlers
    apply: a handler answers a request in which a client filled in the
    declared defaults exactly as it answers the request as sent. *)
Theorem handlers_apply_schema_defaults (h : Host) (a : json) :
  analyzeContentQuality h (Some (fill_defaults "analyze_content_quality" a))
  = analyzeContentQuality h (Some a)
  /\ analyzeTextDirect h (Some (fill_defaults "analyze_text_direct" a))
     = analyzeTextDirect h (Some a)
  /\ listChromaCollections h (Some (fill_defaults "list_chroma_collections" a))
     = listChromaCollections h (Some a)
  /\ getAnalysisHelp (Some (fill_defaults "get_analysis_help" a))
     = getAnalysisHelp (Some a).
Proof.
  destruct a;
    try (rewrite !fill_defaults_other by (intros ? ?; discriminate);
         repeat split; reflexivity).
  repeat split.
  - destruct (fill_defaults_object "analyze_content_quality" _ props eq_refl)
      as (props' & -> & Hk).
    cbv beta iota delta [analyzeContentQuality field]. rewrite !Hk.
    destruct (assoc "chroma_directory" props), (assoc "analysis_mode" props),
      (assoc "verbose" props), (assoc "collection_name" props); reflexivity.
  - destruct (fill_defaults_object "analyze_text_direct" _ props eq_refl)
      as (props' & -> & Hk).
    cbv beta iota delta [analyzeTextDirect field]. rewrite !Hk.
    destruct (assoc "text" props), (assoc "metadata" props),
      (assoc "analysis_mode" props); reflexivity.
  - destruct (fill_defaults_object "list_chroma_collections" _ props eq_refl)
      as (props' & -> & Hk).
    cbv beta iota delta [listChromaCollections field]. rewrite !Hk.
    destruct (assoc "chroma_directory" props); reflexivity.
  - destruct (fill_defaults_object "get_analysis_help" _ props eq_refl)
      as (props' & -> & Hk).
    cbv beta iota delta [getAnalysisHelp field]. rewrite !Hk.
    destruct (assoc "topic" props); reflexivity.
Qed.

Lemma fill_defaults_example :
  fill_defaults "analyze_content_quality" (JObj [ ("collection_name", JStr "docs") ])
  = JObj [ ("collection_name", JStr "docs");
           ("chroma_directory", JStr default_chroma_directory);
           ("analysis_mode", JStr "auto"); ("verbose", JBool false) ].
Proof. reflexivity. Qed.

(** ** Requests that conform to the schemas *)

(** What conformance says about one declared property. *)
Lemma conforms_property (tool : string) (t : tool_schema) (p : property_schema)
    (a : json) :
  find_tool tool = Some t ->
  In p (t_properties t) ->
  conforms_to tool a = true ->
  match field a (p_name p) with
  | Some v => type_ok (p_type p) v = true /\ enum_ok (p_enum p) v = true
  | None => True
  end.
Proof.
  intros Ht Hp. unfold conforms_to. rewrite Ht. unfold conforms.
  destruct a; try discriminate. rewrite andb_true_iff. intros [Hall _].
  rewrite forallb_forall in Hall. specialize (Hall p Hp).
  unfold property_ok in Hall.
  destruct (field (JObj props) (p_name p)); [| exact I].
  rewrite !andb_true_iff in Hall. tauto.
Qed.


Lemma type_ok_string (v : json) :
  type_ok "string" v = true -> exists s, v = JStr s.
Proof. destruct v; try discriminate. eauto. Qed.

(** A string property of a conforming request is absent or a string. *)
Lemma conforms_string (tool : string) (t : tool_schema) (p : property_schema)
    (a : json) (d : string) :
  find_tool tool = Some t ->
  In p (t_properties t) ->
  p_type p = "string" ->
  conforms_to tool a = true ->
  is_string (with_default (JStr d) (field a (p_name p))) = true.
Proof.
  intros Ht Hp Hty Hc. pose proof (conforms_property tool t p a Ht Hp Hc) as H.
  destruct (field a (p_name p)) as [v |]; [| reflexivity].
  destruct H as [H _]. rewrite Hty in H.
  destruct (type_ok_string v H) as [s ->]. reflexivity.
Qed.

(** What the collection analysis starts, with its parts. *)
Lemma analyzeContentQuality_args (h : Host) (a : json) (args : list json) :
  In args (spawned (analyzeContentQuality h (Some a))) ->
  exists name,
    field a "collection_name" = Some name
    /\ truthy (Some name) = true
    /\ args
       = quality_pythonArgs h
           (with_default (JStr default_chroma_directory) (field a "chroma_directory"))
           name (with_default (JStr "auto") (field a "analysis_mode"))
           (Some (with_default (JBool false) (field a "verbose"))).
Proof.
  unfold analyzeContentQuality.
  destruct a; try (intros []);
    (destruct (field _ "collection_name") as [name |]; [| intros []];
     destruct (truthy (Some name)) eqn:Ht; [| intros []]; cbv zeta;
     destruct (runPythonScript h _);
     [ | destruct (to_string name); [destruct (to_string _) |] | ];
     cbn; intros [<- | []]; eauto).
Qed.

(** For a request that conforms to its tool's schema, every argument the
    handler hands to [spawn] is a string. *)
Theorem conforming_arguments_are_strings (h : Host) (a : json) (args : list json) :
  (conforms_to "analyze_content_quality" a = true ->
   In args (spawned (analyzeContentQuality h (Some a))) ->
   forallb is_string args = true)
  /\ (conforms_to "analyze_text_direct" a = true ->
      In args (spawned (analyzeTextDirect h (Some a))) ->
      forallb is_string args = true)
  /\ (conforms_to "list_chroma_collections" a = true ->
      In args (spawned (listChromaCollections h (Some a))) ->
      forallb is_string args = true).
Proof.
  repeat split.
  - intros Hc Hin.
    destruct (analyzeContentQuality_args h a args Hin) as (name & Hn & _ & ->).
    assert (Hdir := conforms_string "analyze_content_quality" _
                      chroma_directory_schema a default_chroma_directory
                      eq_refl ltac:(simpl; tauto) eq_refl Hc).
    assert (Hmode := conforms_string "analyze_content_quality" _
                       {| p_name := "analysis_mode"; p_type := "string";
                          p_enum := Some ["auto"; "individual"; "website"; "competitive"];
                          p_default := Some (JStr "auto"); p_properties := [] |}
                       a "auto" eq_refl ltac:(simpl; tauto) eq_refl Hc).
    assert (Hname := conforms_string "analyze_content_quality" _
                       {| p_name := "collection_name"; p_type := "string";
                          p_enum := None; p_default := None; p_properties := [] |}
                       a EmptyString eq_refl ltac:(simpl; tauto) eq_refl Hc).
    cbn [p_name chroma_directory_schema] in Hdir, Hmode, Hname.
    rewrite Hn in Hname. cbn [with_default] in Hname.
    unfold quality_pythonArgs. rewrite forallb_app. cbn [forallb is_string].
    rewrite Hdir, Hmode, Hname.
    repeat match goal with
           | |- context [if ?b then _ else _] => destruct b
           end; reflexivity.
  - intros Hc Hin.
    destruct (analyzeTextDirect_spawned h a) as [E | E]; rewrite E in Hin;
      [destruct Hin |].
    destruct Hin as [<- | []].
    assert (Hmode := conforms_string "analyze_text_direct" _
                       {| p_name := "analysis_mode"; p_type := "string";
                          p_enum := Some ["individual"];
                          p_default := Some (JStr "individual"); p_properties := [] |}
                       a "individual" eq_refl ltac:(simpl; tauto) eq_refl Hc).
    cbn [p_name] in Hmode.
    unfold direct_pythonArgs. rewrite forallb_app. cbn [forallb is_string].
    rewrite Hmode.
    repeat match goal with
           | |- context [if ?b then _ else _] => destruct b
           end; reflexivity.
  - intros Hc Hin.
    assert (Hdir := conforms_string "list_chroma_collections" _
                      chroma_directory_schema a default_chroma_directory
                      eq_refl ltac:(simpl; tauto) eq_refl Hc).
    cbn [p_name chroma_directory_schema] in Hdir.
    revert Hin. unfold listChromaCollections.
    destruct a; try (cbv in Hc; discriminate Hc). cbv zeta.
    destruct (runPythonScript h _); cbn [spawned effects flat_map app];
      intros [<- | []]; unfold list_pythonArgs; cbn [forallb is_string];
      now rewrite Hdir.
Qed.

Lemma conforming_arguments_are_strings_witness :
  forallb is_string
    (quality_pythonArgs sample_host (JStr "/data/chroma") (JStr "docs")
       (JStr "website") (Some (JBool true))) = true.
Proof.
  apply (proj1 (conforming_arguments_are_strings sample_host
                  (JObj [ ("collection_name", JStr "docs");
                          ("chroma_directory", JStr "/data/chroma");
                          ("analysis_mode", JStr "website");
                          ("verbose", JBool true) ]) _)).
  - reflexivity.
  - left. reflexivity.
Defined.



(** ** The name of the temp file *)







End ServerCoverage.
